(** * Request routing, dispatch and metrics of the multi-node benchmark driver

    A shallow embedding of
      - [multi_node/benchmarks/benchmark_utils.py]
        ([RequestFuncOutput], [BenchmarkMetrics]),
      - [multi_node/benchmarks/multi_exp_configs/multi_exp_utils.py]
        ([calc_send_out_times]),
      - [multi_node/model_runtime_manager.py]
        ([GPUConfig], the runtime variants, [ModelDetails]),
    followed by the properties of these functions.

    Conventions.
      - A Python exception is a value of [exn]; a computation that may raise
        returns a [result].  A method that mutates [self] before it raises
        returns the mutated object next to the [result].
      - A Python [float] is a [pyfloat]: an exact rational, one of the two
        infinities, or NaN.  Rounding is not represented; what is kept is
        what the code branches on: comparison, the test for zero before a
        division, [float('inf')] and NaN.  A Python [int] is a [Z].
      - Calls that leave the process (HTTP, the random generator, uuid, the
        router, the tokenizer, numpy) are arguments of the functions that
        make them. *)

From Stdlib Require Import ZArith QArith Qround Lia List.
From stdpp Require Import gmap strings list fin_maps pretty.

Local Open Scope string_scope.
Local Open Scope list_scope.
Local Open Scope Z_scope.

(** ** Exceptions and results *)

Inductive exn : Type :=
  | ZeroDivisionError
  | TypeError
  | KeyError
  | IndexError
  | ValueError
  | AttributeError
  | ConnectionError
  | JSONDecodeError.

Inductive result (A : Type) : Type :=
  | Ok (a : A)
  | Raise (e : exn).

Arguments Ok {A} a.
Arguments Raise {A} e.

Definition bind {A B : Type} (r : result A) (k : A -> result B) : result B :=
  match r with
  | Ok a => k a
  | Raise e => Raise e
  end.

Notation "'do' x <- e ; k" := (bind e (fun x => k))
  (at level 10, x name, e at level 100, k at level 200).

Notation "'do' ' p <- e ; k" :=
  (bind e (fun x => match x with p => k end))
  (at level 10, p pattern, e at level 100, k at level 200).

Definition is_ok {A : Type} (r : result A) : bool :=
  match r with Ok _ => true | Raise _ => false end.

(** [[f(x) for x in xs]] where [f] may raise: the first exception ends the
    comprehension. *)
Fixpoint mapM {A B : Type} (f : A -> result B) (xs : list A) : result (list B) :=
  match xs with
  | [] => Ok []
  | x :: xs' => do y <- f x; do ys <- mapM f xs'; Ok (y :: ys)
  end.

(** ** Python floats *)

Inductive pyfloat : Type :=
  | Real (q : Q)
  | PInf
  | NInf
  | NaN.

Definition of_int (z : Z) : pyfloat := Real (inject_Z z).

Definition float_neg (x : pyfloat) : pyfloat :=
  match x with
  | Real q => Real (- q)%Q
  | PInf => NInf
  | NInf => PInf
  | NaN => NaN
  end.

Definition float_add (x y : pyfloat) : pyfloat :=
  match x, y with
  | NaN, _ | _, NaN => NaN
  | Real a, Real b => Real (a + b)%Q
  | PInf, NInf | NInf, PInf => NaN
  | PInf, _ | _, PInf => PInf
  | NInf, _ | _, NInf => NInf
  end.

Definition float_sub (x y : pyfloat) : pyfloat := float_add x (float_neg y).

Definition float_mul (x y : pyfloat) : pyfloat :=
  match x, y with
  | NaN, _ | _, NaN => NaN
  | Real a, Real b => Real (a * b)%Q
  | Real a, PInf | PInf, Real a =>
      if Qeq_bool a 0 then NaN else if Qle_bool 0 a then PInf else NInf
  | Real a, NInf | NInf, Real a =>
      if Qeq_bool a 0 then NaN else if Qle_bool 0 a then NInf else PInf
  | PInf, PInf | NInf, NInf => PInf
  | PInf, NInf | NInf, PInf => NInf
  end.

(** [x == 0] *)
Definition float_is_zero (x : pyfloat) : bool :=
  match x with
  | Real q => Qeq_bool q 0
  | _ => false
  end.

(** The quotient of IEEE arithmetic, for a divisor that is not zero. *)
Definition float_quot (x y : pyfloat) : pyfloat :=
  match x, y with
  | NaN, _ | _, NaN => NaN
  | Real a, Real b => Real (a / b)%Q
  | Real _, _ => Real 0
  | _, PInf | _, NInf => NaN
  | PInf, Real b => if Qle_bool 0 b then PInf else NInf
  | NInf, Real b => if Qle_bool 0 b then NInf else PInf
  end.

(** [x / y]: Python raises on a zero divisor, for ints and floats alike. *)
Definition truediv (x y : pyfloat) : result pyfloat :=
  if float_is_zero y then Raise ZeroDivisionError else Ok (float_quot x y).

(** [x <= y]; every comparison with NaN is false. *)
Definition float_le (x y : pyfloat) : bool :=
  match x, y with
  | NaN, _ | _, NaN => false
  | Real a, Real b => Qle_bool a b
  | NInf, _ | _, PInf => true
  | _, _ => false
  end.

(** [x == float('inf')] *)
Definition float_is_inf (x : pyfloat) : bool :=
  match x with PInf => true | _ => false end.

Definition float_is_nan (x : pyfloat) : bool :=
  match x with NaN => true | _ => false end.

(** ** benchmark_utils.py *)

Module RequestFuncOutput.

Record t : Type := mk {
  generated_text : string;
  success : bool;
  request_latency : pyfloat;
  ttft : pyfloat;
  itl : list pyfloat;
  prompt_len : Z;
  error : string;
  global_time : pyfloat;
  output_len : option Z;
  tpot : option pyfloat;
  prefill_decode_ratio : option pyfloat;
  send_out_time : pyfloat;
  route_dest : option Z
}.

(** The dataclass defaults: [RequestFuncOutput()]. *)
Definition default : t :=
  mk "" false (of_int 0) (of_int 0) [] 0 "" (of_int 0) None None None (of_int 0) None.

Definition set_output_len (v : option Z) (r : t) : t :=
  mk (generated_text r) (success r) (request_latency r) (ttft r) (itl r)
     (prompt_len r) (error r) (global_time r) v (tpot r)
     (prefill_decode_ratio r) (send_out_time r) (route_dest r).

Definition set_tpot (v : option pyfloat) (r : t) : t :=
  mk (generated_text r) (success r) (request_latency r) (ttft r) (itl r)
     (prompt_len r) (error r) (global_time r) (output_len r) v
     (prefill_decode_ratio r) (send_out_time r) (route_dest r).

Definition set_prefill_decode_ratio (v : option pyfloat) (r : t) : t :=
  mk (generated_text r) (success r) (request_latency r) (ttft r) (itl r)
     (prompt_len r) (error r) (global_time r) (output_len r) (tpot r)
     v (send_out_time r) (route_dest r).

(** [len(tokenizer(self.generated_text).input_ids)] when [output_len] is
    [None], the stored value otherwise. *)
Definition resolved_output_len (tokenizer : string -> list Z) (self : t) : Z :=
  match output_len self with
  | None => Z.of_nat (length (tokenizer (generated_text self)))
  | Some n => n
  end.

(** [update_metrics] assigns to [self] field by field; the object returned
    is [self] as the call leaves it, also when the last division raises. *)
Definition update_metrics (tokenizer : string -> list Z) (self : t)
  : t * result unit :=
  let n := resolved_output_len tokenizer self in
  let self := set_output_len (Some n) self in
  let step :=
    if 1 <? n then
      match truediv (float_sub (request_latency self) (ttft self))
                    (of_int (n - 1)) with
      | Ok v => (set_tpot (Some v) self, Ok tt)
      | Raise e => (self, Raise e)
      end
    else (self, Ok tt) in
  match step with
  | (self, Raise e) => (self, Raise e)
  | (self, Ok _) =>
      match truediv (ttft self) (request_latency self) with
      | Ok v => (set_prefill_decode_ratio (Some v) self, Ok tt)
      | Raise e => (self, Raise e)
      end
  end.

(** The property [total_tokens]: [None] in the sum is a [TypeError]. *)
Definition total_tokens (self : t) : result Z :=
  match output_len self with
  | Some n => Ok (prompt_len self + n)
  | None => Raise TypeError
  end.

(** The property [overall_throughput]: [total_tokens] is read first, then
    divided by [request_latency]. *)
Definition overall_throughput (self : t) : result pyfloat :=
  do tokens <- total_tokens self;
  truediv (of_int tokens) (request_latency self).

End RequestFuncOutput.

(** ** numpy

    The reductions that [gen_benchmark_metrics] calls, as an interface with
    the part of numpy's contract that is used: none of them raises on a
    list that is not empty (a percentile taken between 0 and 100),
    [average] and [mean] of an empty list are NaN (numpy warns and returns
    NaN), [max] of an empty list raises. *)

Class Numpy : Type := {
  np_average : list pyfloat -> result pyfloat;
  np_mean : list pyfloat -> result pyfloat;
  np_std : list pyfloat -> result pyfloat;
  np_percentile : list pyfloat -> Z -> result pyfloat;
  np_max : list pyfloat -> result pyfloat;
  np_average_nil : np_average [] = Ok NaN;
  np_average_cons : forall x xs, is_ok (np_average (x :: xs)) = true;
  np_mean_nil : np_mean [] = Ok NaN;
  np_mean_cons : forall x xs, is_ok (np_mean (x :: xs)) = true;
  np_std_cons : forall x xs, is_ok (np_std (x :: xs)) = true;
  np_percentile_cons : forall x xs q,
    0 <= q <= 100 -> is_ok (np_percentile (x :: xs) q) = true;
  np_max_nil : np_max [] = Raise ValueError;
  np_max_cons : forall x xs, is_ok (np_max (x :: xs)) = true
}.

(** [sum(xs)] for ints and for bools ([True] counts 1). *)
Definition py_sum (xs : list Z) : Z := fold_left Z.add xs 0.

Definition py_sum_bool (bs : list bool) : Z :=
  py_sum (map (fun b : bool => if b then 1 else 0) bs).

Definition is_not_None {A : Type} (o : option A) : bool :=
  match o with Some _ => true | None => false end.

(** An element of a list handed to numpy must be a number. *)
Definition number (o : option pyfloat) : result pyfloat :=
  match o with Some v => Ok v | None => Raise TypeError end.

Module BenchmarkMetrics.

Record t : Type := mk {
  num_finished_requests : Z;
  average_finished_topt : pyfloat;
  ttfts : list pyfloat;
  tpots : list pyfloat;
  throughput_tok_sec : pyfloat;
  all_results : list RequestFuncOutput.t;
  average_request_latency : pyfloat;
  std_request_latency : pyfloat;
  average_p90 : pyfloat;
  max_latency : pyfloat;
  p99_latency : pyfloat;
  average_ttft : pyfloat;
  average_topt : pyfloat;
  prefill_decode_ratio : pyfloat;
  overall_latency : pyfloat;
  requests_per_sec : pyfloat;
  gpu_counts : gmap Z Z
}.

(** [for result in req_func_outputs: result.update_metrics(tokenizer)]:
    the records are updated in place, in order, up to the first one whose
    update raises. *)
Fixpoint update_all (tokenizer : string -> list Z)
    (req_func_outputs : list RequestFuncOutput.t)
  : list RequestFuncOutput.t * result unit :=
  match req_func_outputs with
  | [] => ([], Ok tt)
  | r :: rest =>
      match RequestFuncOutput.update_metrics tokenizer r with
      | (r', Raise e) => (r' :: rest, Raise e)
      | (r', Ok _) =>
          let '(rest', o) := update_all tokenizer rest in (r' :: rest', o)
      end
  end.

(** The guard of the comprehension behind [average_finished_tpot]. *)
Definition finished_with_tpot (time_limit : pyfloat)
    (result : RequestFuncOutput.t) : bool :=
  is_not_None (RequestFuncOutput.tpot result)
  && float_le (RequestFuncOutput.global_time result) time_limit
  && RequestFuncOutput.success result.

Definition gen_benchmark_metrics `{Numpy} (tokenizer : string -> list Z)
    (req_func_outputs : list RequestFuncOutput.t)
    (overall_latency time_limit : pyfloat) (gpu_counts : gmap Z Z)
  : result t :=
  let '(req_func_outputs, updated) := update_all tokenizer req_func_outputs in
  do _ <- updated;
  let ttfts := map RequestFuncOutput.ttft req_func_outputs in
  let tpots := omap RequestFuncOutput.tpot req_func_outputs in
  let request_latencies :=
    map RequestFuncOutput.request_latency req_func_outputs in
  do tokens <- mapM RequestFuncOutput.total_tokens req_func_outputs;
  do throughput_tok_sec <- truediv (of_int (py_sum tokens)) overall_latency;
  let num_finished_requests :=
    py_sum_bool
      (map (fun result => float_le (RequestFuncOutput.global_time result) time_limit)
           (List.filter RequestFuncOutput.success req_func_outputs)) in
  do average_finished_tpot <-
    np_average
      (omap RequestFuncOutput.tpot
            (List.filter (finished_with_tpot time_limit) req_func_outputs));
  do ratios <-
    mapM (fun result => number (RequestFuncOutput.prefill_decode_ratio result))
         req_func_outputs;
  do prefill_decode_ratio <- np_average ratios;
  do average_request_latency <- np_mean request_latencies;
  do std_request_latency <- np_std request_latencies;
  do average_p90 <- np_percentile request_latencies 90;
  do max_latency <- np_max request_latencies;
  do p99_latency <- np_percentile request_latencies 99;
  do average_ttft <- np_mean ttfts;
  do average_topt <- np_mean tpots;
  do requests_per_sec <-
    truediv (of_int (Z.of_nat (length req_func_outputs))) overall_latency;
  Ok (mk num_finished_requests average_finished_tpot ttfts tpots
         throughput_tok_sec req_func_outputs average_request_latency
         std_request_latency average_p90 max_latency p99_latency
         average_ttft average_topt prefill_decode_ratio overall_latency
         requests_per_sec gpu_counts).

End BenchmarkMetrics.

(** ** numpy.random

    [np.random.exponential(scale)]; the first argument numbers the draws of
    one run, so that successive calls may return different samples.  For a
    positive finite [scale] a sample is a finite number that is not
    negative. *)

Class NumpyRandom : Type := {
  np_random_exponential : nat -> pyfloat -> result pyfloat;
  np_random_exponential_pos : forall (k : nat) (s : Q),
    (0 < s)%Q ->
    exists q : Q, np_random_exponential k (Real s) = Ok (Real q) /\ (0 <= q)%Q
}.

(** ** multi_exp_utils.py *)

(** [scale_to_gpu(workload, gpus)]: [[w * gpus for w in workload]], for a
    workload of ints. *)
Definition scale_to_gpu (workload : list Z) (gpus : Z) : list Z :=
  map (fun w => w * gpus) workload.

(** [pipeline_parallelism(pp, forward_equation)]: the function returned
    calls [forward_equation] on its arguments and divides by [pp]. *)
Definition pipeline_parallelism {Args : Type} (pp : Z)
    (forward_equation : Args -> result pyfloat) : Args -> result pyfloat :=
  fun args => do t <- forward_equation args; truediv t (of_int pp).

(** [xs[-1]] *)
Definition py_last {A : Type} (xs : list A) : result A :=
  match last xs with
  | Some x => Ok x
  | None => Raise IndexError
  end.

(** The body of [for i in range(len(requests) - 1)], run for the indices
    [indices] in turn. *)
Fixpoint send_out_loop `{NumpyRandom} (request_rate : pyfloat)
    (indices : list nat) (send_out_times : list pyfloat)
  : result (list pyfloat) :=
  match indices with
  | [] => Ok send_out_times
  | i :: indices' =>
      do interval <-
        (if float_is_inf request_rate then Ok (of_int 0)
         else do scale <- truediv (of_int 1) request_rate;
              np_random_exponential i scale);
      do prev <- py_last send_out_times;
      send_out_loop request_rate indices'
        (send_out_times ++ [float_add prev interval])
  end.

Definition calc_send_out_times `{NumpyRandom} {Req : Type}
    (requests : list Req) (request_rate exp_time : pyfloat)
  : result (list pyfloat) :=
  do send_out_times <-
    send_out_loop request_rate (seq 0 (length requests - 1)%nat) [of_int 0];
  do prev <- py_last send_out_times;
  Ok (send_out_times ++ [prev]).

(** [all(a <= b for a, b in zip(xs, xs[1:]))] *)
Fixpoint non_decreasing (xs : list pyfloat) : bool :=
  match xs with
  | x :: (y :: _) as xs' => float_le x y && non_decreasing xs'
  | _ => true
  end.

(** A rate that is infinite, or finite and positive. *)
Definition positive_rate (request_rate : pyfloat) : Prop :=
  request_rate = PInf \/ exists r : Q, request_rate = Real r /\ (0 < r)%Q.

(** ** model_runtime_manager.py *)

(** Python values that travel in dicts: sampling parameters, ssh settings,
    keyword arguments and decoded JSON. *)
#[warnings="-register-all"]
Inductive pyval : Type :=
  | VNone
  | VBool (b : bool)
  | VInt (z : Z)
  | VFloat (x : pyfloat)
  | VStr (s : string)
  | VList (l : list pyval)
  | VDict (d : gmap string pyval).

(** [d.pop(key, default)]: the value and the dict without the key. *)
Definition dict_pop (key : string) (default : pyval) (d : gmap string pyval)
  : pyval * gmap string pyval :=
  (match d !! key with Some v => v | None => default end, delete key d).

(** [d[key]] *)
Definition dict_getitem (d : gmap string pyval) (key : string) : result pyval :=
  match d !! key with
  | Some v => Ok v
  | None => Raise KeyError
  end.

(** [v[key]] on a value: only a dict is subscripted by a string. *)
Definition getitem (v : pyval) (key : string) : result pyval :=
  match v with
  | VDict d => dict_getitem d key
  | _ => Raise TypeError
  end.

(** [xs[i]] on a list: a negative index counts from the end. *)
Definition list_getitem {A : Type} (xs : list A) (i : Z) : result A :=
  let n := Z.of_nat (length xs) in
  let j := if i <? 0 then i + n else i in
  if (0 <=? j) && (j <? n) then
    match xs !! Z.to_nat j with
    | Some x => Ok x
    | None => Raise IndexError
    end
  else Raise IndexError.

(** The operand of an arithmetic operator as a number: a bool is an int. *)
Inductive number_of : Type :=
  | NInt (z : Z)
  | NFloat (x : pyfloat)
  | NotNumber.

Definition as_number (v : pyval) : number_of :=
  match v with
  | VBool b => NInt (if b then 1 else 0)
  | VInt z => NInt z
  | VFloat x => NFloat x
  | _ => NotNumber
  end.

Definition to_float (n : number_of) : result pyfloat :=
  match n with
  | NInt z => Ok (of_int z)
  | NFloat x => Ok x
  | NotNumber => Raise TypeError
  end.

(** [a + b] *)
Definition val_add (a b : pyval) : result pyval :=
  match a, b with
  | VStr s, VStr s' => Ok (VStr (s ++ s'))
  | VList l, VList l' => Ok (VList (l ++ l'))
  | _, _ =>
      match as_number a, as_number b with
      | NInt x, NInt y => Ok (VInt (x + y))
      | x, y => do fx <- to_float x; do fy <- to_float y;
                Ok (VFloat (float_add fx fy))
      end
  end.

(** [a / x] for a float [x] *)
Definition val_truediv (a : pyval) (x : pyfloat) : result pyval :=
  do fa <- to_float (as_number a);
  do q <- truediv fa x;
  Ok (VFloat q).

(** The attribute [url] of a [GPUConfig] is the field [gpu_url]. *)
Record GPUConfig : Type := {
  gpu_id : Z;
  gpu_url : option string;
  use_ssh : bool;
  ssh_config : gmap string pyval
}.

(** [GPUConfig(gpu_id, url=None, use_ssh=False, ssh_config={})] *)
Definition GPUConfig_init (gpu_id : Z) (url : option string) (use_ssh : bool)
    (ssh_config : gmap string pyval) : GPUConfig :=
  {| gpu_id := gpu_id; gpu_url := url; use_ssh := use_ssh;
     ssh_config := ssh_config |}.

(** Truth value of [config.url]: [None] and the empty string are false. *)
Definition url_truthy (url : option string) : bool :=
  match url with
  | Some s => negb (String.eqb s "")
  | None => false
  end.

Inductive runtime_class : Type :=
  | SSHRuntime
  | URLRuntime
  | ExtendedSGLangRuntime.

(** A runtime object: its class and the attributes the manager reads. *)
Record EndpointRuntimeInterface : Type := {
  class_of : runtime_class;
  runtime_id : string;
  url : string;
  generate_url : string;
  gpu : pyval
}.

Definition flush_cache_url (r : EndpointRuntimeInterface) : string :=
  url r ++ "/flush_cache".

(** *** Collaborators of the manager

    Code that the manager calls and that is not part of it: the two server
    classes a runtime inherits from ([SSHRuntimeManager] of [ssh_runtime],
    [Runtime] of [sglang.srt.server]), the router
    ([DataParallelRequestRouter]), [uuid.uuid4] and [requests.get].  A
    server constructor is given its keyword arguments and, unless it
    raises, leaves the attributes [runtime_id], [url] and [_generate_url]
    on the object. *)

Class Collaborators : Type := {
  (** [SSHRuntimeManager.__init__(model_path=, ssh_config=, gpu=, cuda_devices=, context_length=, **kwargs)] *)
  SSHRuntimeManager_init :
    string -> gmap string pyval -> Z -> Z -> Z -> gmap string pyval ->
    result (string * string * string);
  (** [SGLangServer.__init__(model_path=, cuda_devices=, context_length=, **kwargs)] *)
  SGLangServer_init :
    string -> list Z -> Z -> gmap string pyval ->
    result (string * string * string);
  (** state of the router *)
  router : Type;
  (** [DataParallelRequestRouter(policy, total_nodes=n)] is not modelled:
      a manager is given its router. *)
  (** [request_router.select_runtime(text, experiment_id, request_id, input_ids)] *)
  select_runtime :
    router -> string -> pyval -> pyval -> option (list Z) ->
    router * result Z;
  (** the hex string of the [k]-th uuid drawn in the run *)
  uuid4_hex : nat -> string;
  (** [requests.get(url)]: raises [ConnectionError] on an endpoint that
      cannot be reached *)
  requests_get : string -> result unit
}.

(** A keyword passed explicitly and again through [**kwargs] is a
    [TypeError] at the call. *)
Definition keywords_clash (explicit : list string) (kwargs : gmap string pyval)
  : bool :=
  existsb (fun k => is_not_None (kwargs !! k)) explicit.

(** Binding of the arguments of a call to a [def] that has neither [*args]
    nor [**kwargs]: [params] are its parameters after [self], [npos] the
    number of positional arguments of the call, [keywords] its keyword
    arguments, those of [**kwargs] included. *)
Definition bind_arguments (params : list string) (npos : nat)
    (keywords : list string) : result unit :=
  if (length params <? npos)%nat then Raise TypeError
  else if existsb (fun k => negb (existsb (String.eqb k) (drop npos params)))
                  keywords
  then Raise TypeError
  else if forallb (fun p => existsb (String.eqb p) keywords) (drop npos params)
  then Ok tt
  else Raise TypeError.

(** [URLRuntime(config.url, cuda_devices=[gpu_id], context_length=4096, **kwargs)].
    [URLRuntime.__init__(self, url, gpu)] takes no keyword of that call;
    its first statement, [super().__init__()], runs the [__post_init__] of
    the dataclass, which reads [self.url] before it is assigned. *)
Definition URLRuntime_new (url : string) (gpu_id : Z)
    (kwargs : gmap string pyval) : result EndpointRuntimeInterface :=
  if keywords_clash ["cuda_devices"; "context_length"] kwargs
  then Raise TypeError
  else
    do _ <- bind_arguments ["url"; "gpu"] 1
              ("cuda_devices" :: "context_length" :: (map_to_list kwargs).*1);
    Raise AttributeError.

(** [SSHRuntime(model_path=, ssh_config=, gpu=, cuda_devices=, context_length=4096, **kwargs)]:
    [SSHRuntime.__init__] hands every argument to [SSHRuntimeManager]. *)
Definition SSHRuntime_new `{Collaborators} (model_path : string)
    (ssh_config : gmap string pyval) (gpu_id : Z) (kwargs : gmap string pyval)
  : result EndpointRuntimeInterface :=
  if keywords_clash
       ["model_path"; "ssh_config"; "gpu"; "cuda_devices"; "context_length"]
       kwargs
  then Raise TypeError
  else
    do '(rid, u, g) <-
      SSHRuntimeManager_init model_path ssh_config gpu_id gpu_id 4096 kwargs;
    Ok {| class_of := SSHRuntime; runtime_id := rid; url := u;
          generate_url := g; gpu := VInt gpu_id |}.

(** [ExtendedSGLangRuntime(model_path=, cuda_devices=[gpu_id], gpu=gpu_id, context_length=4096, **kwargs)]:
    [__init__(self, gpu, *args, **kwargs)] keeps [gpu] and hands the rest
    to [SGLangServer]. *)
Definition ExtendedSGLangRuntime_new `{Collaborators} (model_path : string)
    (gpu_id : Z) (kwargs : gmap string pyval)
  : result EndpointRuntimeInterface :=
  if keywords_clash ["model_path"; "cuda_devices"; "gpu"; "context_length"]
                    kwargs
  then Raise TypeError
  else
    do '(rid, u, g) <- SGLangServer_init model_path [gpu_id] 4096 kwargs;
    Ok {| class_of := ExtendedSGLangRuntime; runtime_id := rid; url := u;
          generate_url := g; gpu := VInt gpu_id |}.

(** What the load generator does, in order: [asyncio.create_task] on a
    request, [await asyncio.sleep] for an interval. *)
Inductive schedule_event (Req : Type) : Type :=
  | CreateTask (request : Req)
  | Sleep (interval : pyfloat).

Arguments CreateTask {Req} request.
Arguments Sleep {Req} interval.

(** One pass of the [while True] loop of [async_send_request], seen from
    the client: the clock differences the body computes, and the decoded
    body of the response ([json.loads] of the joined chunks), or the
    exception raised by the transport or by the decoder. *)
Record attempt : Type := {
  a_ttft : pyfloat;
  a_request_latency : pyfloat;
  a_global_time : pyfloat;
  a_output : result (gmap string pyval)
}.

(** What the dispatch of one request does, in order. *)
Inductive dispatch_event : Type :=
  | Select (text : string) (experiment_id request_id : pyval)
           (input_ids : option (list Z))
  | Post (generate_url text : string) (sampling_params : gmap string pyval)
         (rid : string).

(** How a coroutine ends within the responses it is given: it returns, it
    raises, or it is still in its loop when they are used up. *)
Inductive outcome (A : Type) : Type :=
  | Returned (a : A)
  | Raised (e : exn)
  | Retrying.

Arguments Returned {A} a.
Arguments Raised {A} e.
Arguments Retrying {A}.

Module ModelDetails.

Record t `{Collaborators} : Type := mk {
  model_path : string;
  weights : list pyval;
  runtimes : list EndpointRuntimeInterface;
  request_router : router;
  gpu_configs : list GPUConfig;
  start_time : option pyfloat;
  request_sent_time : list pyfloat;
  current_experiment_state_time : option pyfloat
}.

Section Methods.
Context `{Collaborators}.

Definition set_runtimes (v : list EndpointRuntimeInterface) (self : t) : t :=
  mk _ (model_path self) (weights self) v (request_router self)
     (gpu_configs self) (start_time self) (request_sent_time self)
     (current_experiment_state_time self).

Definition set_request_router (v : router) (self : t) : t :=
  mk _ (model_path self) (weights self) (runtimes self) v
     (gpu_configs self) (start_time self) (request_sent_time self)
     (current_experiment_state_time self).

Definition set_start_time (v : option pyfloat) (self : t) : t :=
  mk _ (model_path self) (weights self) (runtimes self)
     (request_router self) (gpu_configs self) v (request_sent_time self)
     (current_experiment_state_time self).

Definition set_request_sent_time (v : list pyfloat) (self : t) : t :=
  mk _ (model_path self) (weights self) (runtimes self)
     (request_router self) (gpu_configs self) (start_time self) v
     (current_experiment_state_time self).

Definition set_current_experiment_state_time (v : option pyfloat)
    (self : t) : t :=
  mk _ (model_path self) (weights self) (runtimes self)
     (request_router self) (gpu_configs self) (start_time self)
     (request_sent_time self) v.

(** [ModelDetails(model_path, gpu_configs, policy)], with the router the
    constructor builds. *)
Definition init (model_path : string) (gpu_configs : list GPUConfig)
    (request_router : router) : t :=
  mk _ model_path [] [] request_router gpu_configs None [] None.

(** The inner function [load_runtime] up to the [append]. *)
Definition load_runtime (model_path : string) (kwargs : gmap string pyval)
    (config : GPUConfig) : result EndpointRuntimeInterface :=
  let gpu_id := gpu_id config in
  if use_ssh config then
    SSHRuntime_new model_path (ssh_config config) gpu_id kwargs
  else if url_truthy (gpu_url config) then
    URLRuntime_new (default "" (gpu_url config)) gpu_id kwargs
  else
    ExtendedSGLangRuntime_new model_path gpu_id kwargs.

(** [for config in gpu_configs: load_runtime(config)] *)
Fixpoint load_runtimes (self : t) (model_path : string)
    (gpu_configs : list GPUConfig) (kwargs : gmap string pyval)
  : t * result unit :=
  match gpu_configs with
  | [] => (self, Ok tt)
  | config :: rest =>
      match load_runtime model_path kwargs config with
      | Raise e => (self, Raise e)
      | Ok runtime =>
          load_runtimes (set_runtimes (runtimes self ++ [runtime]) self)
                        model_path rest kwargs
      end
  end.

(** [select_runtime_with_identifiers]: [k] counts the uuids drawn so
    far.  Both defaults of [pop] are evaluated, so two uuids are drawn
    whether the keys are present or not.  Returns the manager, the
    uuid count, the dict as the call leaves it, the call made to the
    router and the runtime. *)
Definition select_runtime_with_identifiers (self : t) (k : nat)
    (text : string) (sampling_params : gmap string pyval)
    (input_ids : option (list Z))
  : t * nat * gmap string pyval * list dispatch_event
    * result EndpointRuntimeInterface :=
  let '(experiment_id, sampling_params) :=
    dict_pop "experiment_id" (VStr (uuid4_hex k)) sampling_params in
  let '(request_id, sampling_params) :=
    dict_pop "request_id" (VStr (uuid4_hex (S k))) sampling_params in
  let '(router', runtime_id) :=
    select_runtime (request_router self) text experiment_id request_id
                   input_ids in
  (set_request_router router' self, S (S k), sampling_params,
   [Select text experiment_id request_id input_ids],
   do runtime_id <- runtime_id; list_getitem (runtimes self) runtime_id).

(** [clear_kv_cache]: the urls on which [requests.get] was called, in
    order, and how the loop ended. *)
Fixpoint flush_each (runtimes : list EndpointRuntimeInterface)
  : list string * result unit :=
  match runtimes with
  | [] => ([], Ok tt)
  | runtime :: rest =>
      match requests_get (flush_cache_url runtime) with
      | Raise e => ([flush_cache_url runtime], Raise e)
      | Ok _ =>
          let '(calls, o) := flush_each rest in
          (flush_cache_url runtime :: calls, o)
      end
  end.

Definition clear_kv_cache (self : t) : list string * result unit :=
  flush_each (runtimes self).

(** The async generator [get_request] together with the body of the
    [async for] that consumes it: each request yielded is handed to
    [asyncio.create_task] before the generator goes on.  [k] numbers
    the draws of the random generator. *)
Fixpoint get_request `{NumpyRandom} {Req : Type} (input_requests : list Req)
    (request_rate : pyfloat) (k : nat)
  : list (schedule_event Req) * result unit :=
  match input_requests with
  | [] => ([], Ok tt)
  | request :: rest =>
      if float_is_inf request_rate then
        let '(events, o) := get_request rest request_rate k in
        (CreateTask request :: events, o)
      else
        match (do scale <- truediv (of_int 1) request_rate;
               np_random_exponential k scale) with
        | Raise e => ([CreateTask request], Raise e)
        | Ok interval =>
            let '(events, o) := get_request rest request_rate (S k) in
            (CreateTask request :: Sleep interval :: events, o)
        end
  end.

(** [async_generate_batch_request_per_sec] up to the [gather]: [now] and
    [now'] are the two readings of [time.time()].  The tasks run
    [routine], which is the caller's: the manager returned carries the
    two writes of the method itself and not what the tasks write while
    the generator sleeps, and the trace records which task is created
    and when. *)
Definition async_generate_batch_request_per_sec `{NumpyRandom}
    {Req : Type} (self : t) (requests : list Req) (request_rate : pyfloat)
    (now now' : pyfloat)
  : t * list (schedule_event Req) * result unit :=
  let self := set_current_experiment_state_time (Some now) self in
  let self :=
    match start_time self with
    | None => set_start_time (Some now') self
    | Some _ => self
    end in
  let '(events, o) := get_request requests request_rate 0 in
  (self, events, o).

(** The [while True] loop of [async_send_request] against the responses
    [attempts], one for each pass. *)
Fixpoint send_loop (generate_url text : string)
    (sampling_params : gmap string pyval) (rid : string)
    (attempts : list attempt)
  : list dispatch_event * outcome (attempt * gmap string pyval) :=
  match attempts with
  | [] => ([], Retrying)
  | a :: rest =>
      let post := Post generate_url text sampling_params rid in
      match a_output a with
      | Raise e => ([post], Raised e)
      | Ok output =>
          if is_not_None (output !! "error") then
            let '(events, o) :=
              send_loop generate_url text sampling_params rid rest in
            (post :: events, o)
          else ([post], Returned (a, output))
      end
  end.

(** The statements of [async_send_request] after the loop. *)
Definition finish (a : attempt) (output : gmap string pyval)
  : result (gmap string pyval) :=
  let output := <["request_latency" := VFloat (a_request_latency a)]> output in
  let output := <["TTFT" := VFloat (a_ttft a)]> output in
  let output := <["global_time" := VFloat (a_global_time a)]> output in
  do meta_info <- dict_getitem output "meta_info";
  do completion_tokens <- getitem meta_info "completion_tokens";
  do topt_req_sec <- val_truediv completion_tokens (a_request_latency a);
  let output := <["topt_req_sec" := topt_req_sec]> output in
  do meta_info <- dict_getitem output "meta_info";
  do prompt_tokens <- getitem meta_info "prompt_tokens";
  do completion_tokens <- getitem meta_info "completion_tokens";
  do total_tokens <- val_add prompt_tokens completion_tokens;
  Ok (<["total_tokens" := total_tokens]> output).

(** [async_send_request]: [k] counts the uuids drawn so far, [sent_at]
    is the reading of [time.time()] logged in [request_sent_time]. *)
Definition async_send_request (self : t) (k : nat) (text : string)
    (sampling_params : gmap string pyval) (input_ids : option (list Z))
    (sent_at : pyfloat) (attempts : list attempt)
  : t * nat * gmap string pyval * list dispatch_event
    * outcome (gmap string pyval) :=
  let rid := uuid4_hex k in
  let sampling_params := <["request_id" := VStr rid]> sampling_params in
  let '(self, k, sampling_params, selected, runtime) :=
    select_runtime_with_identifiers self (S k) text sampling_params
                                    input_ids in
  match runtime with
  | Raise e => (self, k, sampling_params, selected, Raised e)
  | Ok runtime =>
      match start_time self with
      | None => (self, k, sampling_params, selected, Raised TypeError)
      | Some started =>
          let self :=
            set_request_sent_time
              (request_sent_time self ++ [float_sub sent_at started])
              self in
          let '(posts, o) :=
            send_loop (generate_url runtime) text sampling_params rid
                      attempts in
          (self, k, sampling_params, selected ++ posts,
           match o with
           | Returned (a, output) =>
               match finish a output with
               | Ok output => Returned output
               | Raise e => Raised e
               end
           | Raised e => Raised e
           | Retrying => Retrying
           end)
      end
  end.

(** [generate_request(self, text, sampling_params)].  Its first statement
    calls [select_runtime_with_identifiers(text, sampling_params)], two
    positional arguments for the three parameters [text],
    [sampling_params], [input_ids]; the statements after it are reached
    only if that call binds.  [post] is [requests.post(url, json=...).json()]
    on the address, the text and the sampling parameters; [elapsed] is the
    difference of the two readings of [time.time()]. *)
Definition generate_request
    (post : string -> string -> gmap string pyval -> result (gmap string pyval))
    (self : t) (k : nat) (text : string) (sampling_params : gmap string pyval)
    (elapsed : pyfloat)
  : t * nat * gmap string pyval * list dispatch_event
    * result (gmap string pyval) :=
  match bind_arguments ["text"; "sampling_params"; "input_ids"] 2 [] with
  | Raise e => (self, k, sampling_params, [], Raise e)
  | Ok _ =>
      let '(self, k, sampling_params, selected, runtime) :=
        select_runtime_with_identifiers self k text sampling_params None in
      (self, k, sampling_params, selected,
       do runtime <- runtime;
       do output <- post (generate_url runtime) text sampling_params;
       Ok (<["request_latency" := VFloat elapsed]> output))
  end.

End Methods.

End ModelDetails.

(** ** Executable instances of the interfaces

    Used to run the functions above on concrete inputs. *)

Module np.

Definition sum (xs : list pyfloat) : pyfloat :=
  fold_left float_add xs (of_int 0).

Definition mean (xs : list pyfloat) : result pyfloat :=
  match xs with
  | [] => Ok NaN
  | _ => Ok (float_quot (sum xs) (of_int (Z.of_nat (length xs))))
  end.

(** Square root, rounded down to a multiple of [2^-32]. *)
Definition sqrt (x : pyfloat) : pyfloat :=
  match x with
  | Real q =>
      if Qle_bool 0 q
      then Real (Z.sqrt (Qfloor (q * inject_Z (2 ^ 64))) # 2 ^ 32)
      else NaN
  | PInf => PInf
  | _ => NaN
  end.

Definition std (xs : list pyfloat) : result pyfloat :=
  do m <- mean xs;
  do v <- mean (map (fun x => float_mul (float_sub x m) (float_sub x m)) xs);
  Ok (sqrt v).

Definition fmax (x y : pyfloat) : pyfloat :=
  if float_is_nan x || float_is_nan y then NaN
  else if float_le x y then y else x.

Definition max (xs : list pyfloat) : result pyfloat :=
  match xs with
  | [] => Raise ValueError
  | x :: xs' => Ok (fold_left fmax xs' x)
  end.

Fixpoint insert (x : pyfloat) (xs : list pyfloat) : list pyfloat :=
  match xs with
  | [] => [x]
  | y :: ys => if float_le x y then x :: xs else y :: insert x ys
  end.

Definition sort (xs : list pyfloat) : list pyfloat :=
  fold_right insert [] xs.

(** Linear interpolation between the two closest ranks. *)
Definition percentile (xs : list pyfloat) (q : Z) : result pyfloat :=
  if (q <? 0) || (100 <? q) then Raise ValueError
  else if existsb float_is_nan xs then Ok NaN
  else
    let sorted := sort xs in
    let rank := (inject_Z (Z.of_nat (length xs) - 1) * (q # 100))%Q in
    let lo := Z.to_nat (Qfloor rank) in
    match sorted !! lo, sorted !! S lo with
    | Some a, Some b =>
        Ok (float_add a (float_mul (Real (rank - inject_Z (Qfloor rank))%Q)
                                   (float_sub b a)))
    | Some a, None => Ok a
    | None, _ => Ok NaN
    end.

End np.

Definition numpy_model : Numpy.
Proof.
  refine {| np_average := np.mean; np_mean := np.mean; np_std := np.std;
            np_percentile := np.percentile; np_max := np.max |};
    try reflexivity.
  - intros x xs q Hq. unfold np.percentile.
    assert ((q <? 0) || (100 <? q) = false) as -> by lia.
    destruct (existsb _ _); [reflexivity|].
    destruct (_ !! _); [destruct (_ !! _)|]; reflexivity.
Defined.

(** A sample sequence for [np.random.exponential]: the [k]-th standard
    sample is [(k mod 3 + 1) / 2], scaled by [scale]; a negative scale is
    refused as numpy does. *)
Definition sample_exponential (k : nat) (scale : pyfloat) : result pyfloat :=
  match scale with
  | Real s =>
      if Qle_bool 0 s
      then Ok (Real (s * (Z.of_nat (k mod 3) + 1 # 2)))
      else Raise ValueError
  | PInf => Ok PInf
  | NInf => Raise ValueError
  | NaN => Ok NaN
  end.

Definition random_model : NumpyRandom.
Proof.
  refine {| np_random_exponential := sample_exponential |}.
  intros k s Hs. unfold sample_exponential.
  assert (Qle_bool 0 s = true) as -> by (apply Qle_bool_iff, Qlt_le_weak, Hs).
  eexists; split; [reflexivity|].
  apply Qmult_le_0_compat; [apply Qlt_le_weak, Hs|].
  unfold Qle; simpl. lia.
Defined.

(** A manager environment: a round-robin router over [total] nodes, uuids
    numbered in the order they are drawn, endpoints whose address starts
    with [http://down] unreachable, servers that start at once. *)
Definition round_robin (r : nat * nat) : (nat * nat) * result Z :=
  let '(next, total) := r in
  match total with
  | O => (r, Raise ZeroDivisionError)
  | S _ => ((S next, total), Ok (Z.of_nat (next mod total)))
  end.

Definition sample_collaborators : Collaborators :=
  {| SSHRuntimeManager_init := fun _ ssh _ _ _ _ =>
       match ssh !! "hostname" with
       | Some (VStr h) =>
           Ok (("ssh-" ++ h)%string, ("http://" ++ h ++ ":30000")%string,
               ("http://" ++ h ++ ":30000/generate")%string)
       | _ => Raise KeyError
       end;
     SGLangServer_init := fun _ _ _ _ =>
       Ok ("local", "http://127.0.0.1:30000",
           "http://127.0.0.1:30000/generate");
     router := nat * nat;
     select_runtime := fun r _ _ _ _ => round_robin r;
     uuid4_hex := fun k => ("uuid" ++ pretty k)%string;
     requests_get := fun u =>
       if String.prefix "http://down" u then Raise ConnectionError else Ok tt |}.

(** ** Readings of a dispatch trace and sample inputs *)

(** A response that decodes to a body with an ['error'] field. *)
Definition error_response (a : attempt) : Prop :=
  exists body : gmap string pyval,
    a_output a = Ok body /\ is_not_None (body !! "error") = true.

(** Every [Post] of the trace comes right after a [Select]: the runtime is
    chosen again before each attempt. *)
Fixpoint selected_anew (events : list dispatch_event) : bool :=
  match events with
  | Select _ _ _ _ :: (Post _ _ _ _ :: rest) => selected_anew rest
  | [] => true
  | _ => false
  end.

Definition is_post (e : dispatch_event) : bool :=
  match e with Post _ _ _ _ => true | Select _ _ _ _ => false end.

Definition is_select (e : dispatch_event) : bool := negb (is_post e).

(** The addresses posted to, in the order of the posts. *)
Definition posted_to (events : list dispatch_event) : list string :=
  omap (fun e => match e with
                 | Post u _ _ _ => Some u
                 | Select _ _ _ _ => None
                 end) events.

(** The requests handed to [asyncio.create_task], in the order of the calls. *)
Definition created {Req : Type} (events : list (schedule_event Req)) : list Req :=
  omap (fun e => match e with CreateTask r => Some r | Sleep _ => None end)
       events.

(** One task and one sleep for each request, in turn. *)
Definition paced {Req : Type} (requests : list Req) (intervals : list pyfloat)
  : list (schedule_event Req) :=
  concat (zip_with (fun r d => [CreateTask r; Sleep d]) requests intervals).

(** A tokenizer with one token for each character. *)
Definition char_tokenizer (s : string) : list Z :=
  map (fun c => Z.of_nat (Ascii.nat_of_ascii c)) (String.list_ascii_of_string s).

(** A record as the dispatch engine fills it on success. *)
Definition finished_record (text : string) (latency first_token at_time : Q)
  : RequestFuncOutput.t :=
  RequestFuncOutput.mk text true (Real latency) (Real first_token) [] 7 ""
    (Real at_time) None None None (of_int 0) None.

(** A failed record: the dataclass defaults with an error text; its
    [request_latency] is the default [0]. *)
Definition failed_record : RequestFuncOutput.t :=
  RequestFuncOutput.mk "" false (of_int 0) (of_int 0) [] 0 "timeout" (of_int 0)
    None None None (of_int 0) None.

(** A record of a request that failed after [latency] seconds. *)
Definition failed_record_after (latency : Q) : RequestFuncOutput.t :=
  RequestFuncOutput.mk "" false (Real latency) (of_int 0) [] 7 "reset by peer"
    (Real latency) None None None (of_int 0) None.

(** Three records: finished in time, finished late, failed. *)
Definition sample_records : list RequestFuncOutput.t :=
  [finished_record "abc" 2 (1 # 2) 3; finished_record "abcd" 3 1 150;
   failed_record_after 1].

(** A record created with [output_len=1, tpot=0.5]. *)
Definition preset_record : RequestFuncOutput.t :=
  RequestFuncOutput.mk "a" true (Real 2) (Real 1) [] 7 "" (Real 1)
    (Some 1) (Some (Real (1 # 2))) None (of_int 0) None.

Definition error_body : gmap string pyval :=
  {[ "error" := VStr "KV cache pool is full" ]}.

Definition good_body : gmap string pyval :=
  {[ "text" := VStr "ok";
     "meta_info" := VDict {[ "prompt_tokens" := VInt 7;
                             "completion_tokens" := VInt 5 ]} ]}.

Definition attempt_of (latency : Q) (body : gmap string pyval) : attempt :=
  {| a_ttft := Real (1 # 10); a_request_latency := Real latency;
     a_global_time := Real latency; a_output := Ok body |}.

Definition runtime_at (u : string) : EndpointRuntimeInterface :=
  {| class_of := ExtendedSGLangRuntime; runtime_id := u; url := u;
     generate_url := (u ++ "/generate")%string; gpu := VInt 0 |}.

(** A manager over two runtimes with a round-robin router about to pick
    the first, in a run started at time 0. *)
Definition two_runtimes (first second : string)
  : @ModelDetails.t sample_collaborators :=
  ModelDetails.mk sample_collaborators "model" []
    [runtime_at first; runtime_at second] (0%nat, 2%nat) [] (Some (of_int 0))
    [] (Some (of_int 0)).

(** A slot that names both a server that is already up and the ssh
    settings to start one. *)
Definition ssh_and_url_config : GPUConfig :=
  GPUConfig_init 0 (Some "http://10.0.0.5:30000") true
    {[ "hostname" := VStr "10.0.0.7"; "username" := VStr "bench" ]}.

(** * Properties *)

(** ** Arithmetic of [pyfloat] *)

Lemma float_is_zero_of_int (z : Z) : float_is_zero (of_int z) = (z =? 0).
Proof.
  unfold float_is_zero, of_int, Qeq_bool, inject_Z. cbn [Qnum Qden].
  rewrite Z.mul_1_r. reflexivity.
Qed.

Lemma truediv_nonzero (x y : pyfloat) :
  float_is_zero y = false -> truediv x y = Ok (float_quot x y).
Proof. intros Hy. unfold truediv. rewrite Hy. reflexivity. Qed.

Lemma truediv_zero (x y : pyfloat) :
  float_is_zero y = true -> truediv x y = Raise ZeroDivisionError.
Proof. intros Hy. unfold truediv. rewrite Hy. reflexivity. Qed.

Lemma float_le_refl_real (q : Q) : float_le (Real q) (Real q) = true.
Proof. simpl. apply Qle_bool_iff, Qle_refl. Qed.

Lemma float_le_add_nonneg (q d : Q) :
  (0 <= d)%Q -> float_le (Real q) (float_add (Real q) (Real d)) = true.
Proof.
  intros Hd. simpl. apply Qle_bool_iff.
  rewrite <- (Qplus_0_r q) at 1. apply Qplus_le_r, Hd.
Qed.

(** ** [RequestFuncOutput.update_metrics] *)

Section UpdateMetrics.
Import RequestFuncOutput.
Variable tokenizer : string -> list Z.

(** The division behind [tpot] has a divisor of at least one. *)
Lemma tpot_division_defined (self : t) (n : Z) :
  1 < n ->
  truediv (float_sub (request_latency self) (ttft self)) (of_int (n - 1))
  = Ok (float_quot (float_sub (request_latency self) (ttft self))
                   (of_int (n - 1))).
Proof.
  intros Hn. apply truediv_nonzero. rewrite float_is_zero_of_int. lia.
Qed.

(** The record and the result of [update_metrics], case by case. *)
Lemma update_metrics_unfold (self : t) :
  let n := resolved_output_len tokenizer self in
  let with_len := set_output_len (Some n) self in
  let with_tpot :=
    if 1 <? n
    then set_tpot (Some (float_quot (float_sub (request_latency self) (ttft self))
                                    (of_int (n - 1)))) with_len
    else with_len in
  update_metrics tokenizer self =
  if float_is_zero (request_latency self)
  then (with_tpot, Raise ZeroDivisionError)
  else (set_prefill_decode_ratio
          (Some (float_quot (ttft self) (request_latency self))) with_tpot,
        Ok tt).
Proof.
  intros n with_len with_tpot. unfold update_metrics.
  fold n. fold with_len. subst with_tpot.
  destruct (Z.ltb_spec 1 n) as [Hn|Hn].
  - pose proof (tpot_division_defined with_len n Hn) as Hdiv.
    simpl in Hdiv. simpl. rewrite Hdiv. unfold truediv. simpl.
    destruct (float_is_zero (request_latency self)); reflexivity.
  - unfold truediv. simpl.
    destruct (float_is_zero (request_latency self)); reflexivity.
Qed.

Lemma update_metrics_success (self : t) :
  success (update_metrics tokenizer self).1 = success self.
Proof.
  rewrite update_metrics_unfold. simpl.
  destruct (float_is_zero _), (1 <? _); reflexivity.
Qed.

Lemma update_metrics_global_time (self : t) :
  global_time (update_metrics tokenizer self).1 = global_time self.
Proof.
  rewrite update_metrics_unfold. simpl.
  destruct (float_is_zero _), (1 <? _); reflexivity.
Qed.

Lemma update_metrics_request_latency (self : t) :
  request_latency (update_metrics tokenizer self).1 = request_latency self.
Proof.
  rewrite update_metrics_unfold. simpl.
  destruct (float_is_zero _), (1 <? _); reflexivity.
Qed.

Lemma update_metrics_output_len (self : t) :
  output_len (update_metrics tokenizer self).1
  = Some (resolved_output_len tokenizer self).
Proof.
  rewrite update_metrics_unfold. simpl.
  destruct (float_is_zero _), (1 <? _); reflexivity.
Qed.

Lemma update_metrics_tpot_after (self : t) :
  tpot (update_metrics tokenizer self).1 =
  if 1 <? resolved_output_len tokenizer self
  then Some (float_quot (float_sub (request_latency self) (ttft self))
                        (of_int (resolved_output_len tokenizer self - 1)))
  else tpot self.
Proof.
  rewrite update_metrics_unfold. simpl.
  destruct (float_is_zero _), (1 <? _); reflexivity.
Qed.

Lemma update_metrics_result (self : t) :
  (update_metrics tokenizer self).2 =
  if float_is_zero (request_latency self)
  then Raise ZeroDivisionError else Ok tt.
Proof.
  rewrite update_metrics_unfold. simpl.
  destruct (float_is_zero _); reflexivity.
Qed.

Lemma update_metrics_ratio_after (self : t) :
  prefill_decode_ratio (update_metrics tokenizer self).1 =
  if float_is_zero (request_latency self)
  then prefill_decode_ratio self
  else Some (float_quot (ttft self) (request_latency self)).
Proof.
  rewrite update_metrics_unfold. simpl.
  destruct (float_is_zero _), (1 <? _); reflexivity.
Qed.

End UpdateMetrics.

(** C4, as stated, fails: a failed record keeps the default
    [request_latency = 0]; on it the last statement of [update_metrics]
    raises [ZeroDivisionError] and [prefill_decode_ratio] stays [None]. *)
Lemma update_metrics_raises_on_zero_latency :
  (RequestFuncOutput.update_metrics char_tokenizer failed_record).2
  = Raise ZeroDivisionError /\
  RequestFuncOutput.prefill_decode_ratio
    (RequestFuncOutput.update_metrics char_tokenizer failed_record).1 = None.
Proof. split; reflexivity. Qed.

(** C4 (amended): for every record whose [request_latency] is not zero,
    failed records included, [update_metrics] returns without raising and
    leaves [prefill_decode_ratio] set to [ttft / request_latency]. *)
Theorem update_metrics_prefill_decode_ratio
    (tokenizer : string -> list Z) (self : RequestFuncOutput.t) :
  float_is_zero (RequestFuncOutput.request_latency self) = false ->
  exists ratio : pyfloat,
    truediv (RequestFuncOutput.ttft self) (RequestFuncOutput.request_latency self)
    = Ok ratio /\
    (RequestFuncOutput.update_metrics tokenizer self).2 = Ok tt /\
    RequestFuncOutput.prefill_decode_ratio
      (RequestFuncOutput.update_metrics tokenizer self).1 = Some ratio.
Proof.
  intros Hlat. eexists. split; [apply truediv_nonzero, Hlat|].
  rewrite update_metrics_result, update_metrics_ratio_after, Hlat.
  split; reflexivity.
Qed.

Lemma update_metrics_prefill_decode_ratio_witness :
  float_is_zero (RequestFuncOutput.request_latency (finished_record "abc" 2 (1 # 2) 3))
  = false /\
  exists ratio : pyfloat,
    truediv (Real (1 # 2)) (Real 2) = Ok ratio /\
    (RequestFuncOutput.update_metrics char_tokenizer
       (finished_record "abc" 2 (1 # 2) 3)).2 = Ok tt /\
    RequestFuncOutput.prefill_decode_ratio
      (RequestFuncOutput.update_metrics char_tokenizer
         (finished_record "abc" 2 (1 # 2) 3)).1 = Some ratio.
Proof.
  split; [reflexivity|].
  apply (update_metrics_prefill_decode_ratio char_tokenizer
           (finished_record "abc" 2 (1 # 2) 3)).
  reflexivity.
Defined.

(** With a zero [request_latency] the call raises, and the ratio is left
    as it was. *)
Lemma update_metrics_zero_latency
    (tokenizer : string -> list Z) (self : RequestFuncOutput.t) :
  float_is_zero (RequestFuncOutput.request_latency self) = true ->
  (RequestFuncOutput.update_metrics tokenizer self).2 = Raise ZeroDivisionError /\
  RequestFuncOutput.prefill_decode_ratio
    (RequestFuncOutput.update_metrics tokenizer self).1
  = RequestFuncOutput.prefill_decode_ratio self.
Proof.
  intros Hlat. rewrite update_metrics_result, update_metrics_ratio_after, Hlat.
  split; reflexivity.
Qed.

(** C5, as stated, fails: [tpot] is a field of the constructor; on a record
    created with [output_len=1, tpot=0.5] the guard is false and the value
    given at creation stays. *)
Lemma update_metrics_keeps_preset_tpot :
  RequestFuncOutput.resolved_output_len char_tokenizer preset_record = 1 /\
  RequestFuncOutput.tpot
    (RequestFuncOutput.update_metrics char_tokenizer preset_record).1
  = Some (Real (1 # 2)).
Proof. split; reflexivity. Qed.

(** C5 (amended): after [update_metrics], [output_len] is resolved; when it
    is greater than 1, [tpot] is [(request_latency - ttft) / (output_len - 1)],
    a division that does not raise; otherwise [tpot] is what it was before
    the call, [None] for a record created without it. *)
Theorem update_metrics_tpot
    (tokenizer : string -> list Z) (self : RequestFuncOutput.t) :
  let n := RequestFuncOutput.resolved_output_len tokenizer self in
  let after := (RequestFuncOutput.update_metrics tokenizer self).1 in
  RequestFuncOutput.output_len after = Some n /\
  if 1 <? n
  then exists v : pyfloat,
         truediv (float_sub (RequestFuncOutput.request_latency self)
                            (RequestFuncOutput.ttft self))
                 (of_int (n - 1)) = Ok v /\
         RequestFuncOutput.tpot after = Some v
  else RequestFuncOutput.tpot after = RequestFuncOutput.tpot self.
Proof.
  intros n after. subst after. split; [apply update_metrics_output_len|].
  rewrite update_metrics_tpot_after. fold n.
  destruct (Z.ltb_spec 1 n) as [Hn|Hn]; [|reflexivity].
  eexists. split; [apply tpot_division_defined, Hn | reflexivity].
Qed.

(** A record with [output_len = 1] and no [tpot] has none afterwards. *)
Lemma update_metrics_single_token
    (tokenizer : string -> list Z) (self : RequestFuncOutput.t) :
  RequestFuncOutput.output_len self = Some 1 ->
  RequestFuncOutput.tpot self = None ->
  RequestFuncOutput.tpot (RequestFuncOutput.update_metrics tokenizer self).1
  = None.
Proof.
  intros Hlen Htpot. rewrite update_metrics_tpot_after.
  unfold RequestFuncOutput.resolved_output_len. rewrite Hlen. exact Htpot.
Qed.

(** ** [BenchmarkMetrics.gen_benchmark_metrics] *)

Lemma is_ok_inv {A : Type} (r : result A) : is_ok r = true -> exists a, r = Ok a.
Proof. destruct r; [eauto | discriminate]. Qed.

Lemma bind_ok_inv {A B : Type} (r : result A) (k : A -> result B) (b : B) :
  bind r k = Ok b -> exists a, r = Ok a /\ k a = Ok b.
Proof. destruct r; simpl; [eauto | discriminate]. Qed.

Lemma mapM_ok {A B : Type} (f : A -> result B) (g : A -> B) (xs : list A) :
  Forall (fun x => f x = Ok (g x)) xs -> mapM f xs = Ok (map g xs).
Proof.
  induction 1 as [|x xs Hx _ IH]; simpl; [reflexivity|].
  rewrite Hx, IH. reflexivity.
Qed.

Lemma py_sum_shift (xs : list Z) (a : Z) :
  fold_left Z.add xs a = a + py_sum xs.
Proof.
  unfold py_sum. revert a. induction xs as [|x xs IH]; intros a; simpl.
  - lia.
  - rewrite (IH (a + x)), (IH (0 + x)). lia.
Qed.

(** [sum] of the booleans of a guarded comprehension counts the elements
    that pass the guard and the test. *)
Lemma py_sum_bool_count {A : Type} (p f : A -> bool) (xs : list A) :
  py_sum_bool (map f (List.filter p xs))
  = Z.of_nat (length (List.filter (fun x => p x && f x) xs)).
Proof.
  unfold py_sum_bool. induction xs as [|x xs IH]; [reflexivity|].
  simpl. destruct (p x); simpl; [|exact IH].
  unfold py_sum in *. simpl. rewrite py_sum_shift. unfold py_sum.
  rewrite IH. destruct (f x); simpl length; lia.
Qed.

Section Aggregation.
Context `{Numpy}.
Variable tokenizer : string -> list Z.

Local Abbreviation updated :=
  (fun r => (RequestFuncOutput.update_metrics tokenizer r).1).

Lemma update_all_ok (rs rs' : list RequestFuncOutput.t) :
  BenchmarkMetrics.update_all tokenizer rs = (rs', Ok tt) ->
  rs' = map updated rs.
Proof.
  revert rs'. induction rs as [|r rs IH]; intros rs' Hrun; simpl in *.
  - congruence.
  - destruct (RequestFuncOutput.update_metrics tokenizer r) as [r' [[]|e]];
      [|discriminate].
    destruct (BenchmarkMetrics.update_all tokenizer rs) as [rest o].
    injection Hrun as <- ->. simpl. f_equal. apply IH. reflexivity.
Qed.

Lemma update_all_total (rs : list RequestFuncOutput.t) :
  Forall (fun r => float_is_zero (RequestFuncOutput.request_latency r) = false) rs ->
  BenchmarkMetrics.update_all tokenizer rs = (map updated rs, Ok tt).
Proof.
  induction 1 as [|r rs Hr _ IH]; simpl; [reflexivity|].
  pose proof (update_metrics_result tokenizer r) as Hres.
  rewrite Hr in Hres.
  destruct (RequestFuncOutput.update_metrics tokenizer r) as [r' o].
  simpl in Hres. subst o. rewrite IH. reflexivity.
Qed.

(** Updating the records changes neither [success] nor [global_time],
    so a count that reads only these two is the same before and after. *)
Lemma count_updated (time_limit : pyfloat) (rs : list RequestFuncOutput.t) :
  length (List.filter
            (fun r => RequestFuncOutput.success r
                      && float_le (RequestFuncOutput.global_time r) time_limit)
            (map updated rs))
  = length (List.filter
              (fun r => RequestFuncOutput.success r
                        && float_le (RequestFuncOutput.global_time r) time_limit)
              rs).
Proof.
  induction rs as [|r rs IH]; [reflexivity|]. simpl.
  rewrite update_metrics_success, update_metrics_global_time.
  destruct (_ && _); simpl; rewrite IH; reflexivity.
Qed.

(** What [num_finished_requests] holds when the aggregation returns: the
    number of records given that have [success] set and
    [global_time <= time_limit]. *)
Lemma gen_benchmark_metrics_count
    (req_func_outputs : list RequestFuncOutput.t)
    (overall_latency time_limit : pyfloat) (gpu_counts : gmap Z Z)
    (metrics : BenchmarkMetrics.t) :
  BenchmarkMetrics.gen_benchmark_metrics tokenizer req_func_outputs
    overall_latency time_limit gpu_counts = Ok metrics ->
  BenchmarkMetrics.num_finished_requests metrics
  = Z.of_nat
      (length
         (List.filter
            (fun r => RequestFuncOutput.success r
                      && float_le (RequestFuncOutput.global_time r) time_limit)
            req_func_outputs)).
Proof.
  unfold BenchmarkMetrics.gen_benchmark_metrics. intros Hrun.
  destruct (BenchmarkMetrics.update_all tokenizer req_func_outputs)
    as [rs' [[]|e]] eqn:Hupd; [|discriminate].
  apply update_all_ok in Hupd. subst rs'.
  repeat match type of Hrun with
         | bind _ _ = Ok _ =>
             apply bind_ok_inv in Hrun; destruct Hrun as (? & _ & Hrun)
         end.
  injection Hrun as <-. simpl.
  rewrite py_sum_bool_count. f_equal. apply count_updated.
Qed.

(** Filtering by a guard that no element passes leaves nothing. *)
Lemma filter_none {A : Type} (p : A -> bool) (xs : list A) :
  Forall (fun x => p x = false) xs -> List.filter p xs = [].
Proof.
  induction 1 as [|x xs Hx _ IH]; simpl; [reflexivity|].
  rewrite Hx. exact IH.
Qed.

Lemma np_mean_total (xs : list pyfloat) : exists v, np_mean xs = Ok v.
Proof.
  destruct xs as [|x xs]; [exists NaN; apply np_mean_nil|].
  apply is_ok_inv, np_mean_cons.
Qed.

Lemma np_average_total (xs : list pyfloat) : exists v, np_average xs = Ok v.
Proof.
  destruct xs as [|x xs]; [exists NaN; apply np_average_nil|].
  apply is_ok_inv, np_average_cons.
Qed.

(** The aggregation returns on every collection that is not empty, whose
    records all have a [request_latency] other than zero, for an
    [overall_latency] other than zero; [average_finished_topt] is then what
    [np.average] makes of the [tpot] of the records that pass the guard. *)
Lemma gen_benchmark_metrics_returns
    (req_func_outputs : list RequestFuncOutput.t)
    (overall_latency time_limit : pyfloat) (gpu_counts : gmap Z Z) :
  req_func_outputs <> [] ->
  Forall (fun r => float_is_zero (RequestFuncOutput.request_latency r) = false)
         req_func_outputs ->
  float_is_zero overall_latency = false ->
  exists (metrics : BenchmarkMetrics.t) (average : pyfloat),
    BenchmarkMetrics.gen_benchmark_metrics tokenizer req_func_outputs
      overall_latency time_limit gpu_counts = Ok metrics /\
    np_average
      (omap RequestFuncOutput.tpot
            (List.filter (BenchmarkMetrics.finished_with_tpot time_limit)
                         (map updated req_func_outputs))) = Ok average /\
    BenchmarkMetrics.average_finished_topt metrics = average.
Proof.
  intros Hne Hlat Hover.
  unfold BenchmarkMetrics.gen_benchmark_metrics.
  rewrite (update_all_total _ Hlat).
  assert (Forall (fun r' => RequestFuncOutput.total_tokens r'
                            = Ok (RequestFuncOutput.prompt_len r'
                                  + default 0 (RequestFuncOutput.output_len r')))
                 (map updated req_func_outputs)) as Htok.
  { apply Forall_map, Forall_forall. intros r _.
    unfold RequestFuncOutput.total_tokens.
    rewrite update_metrics_output_len. reflexivity. }
  assert (Forall (fun r' => number (RequestFuncOutput.prefill_decode_ratio r')
                            = Ok (default NaN (RequestFuncOutput.prefill_decode_ratio r')))
                 (map updated req_func_outputs)) as Hratio.
  { apply Forall_map. eapply Forall_impl; [exact Hlat|]. intros r Hr. simpl.
    rewrite update_metrics_ratio_after, Hr. reflexivity. }
  destruct req_func_outputs as [|r0 rest]; [contradiction|].
  remember (map updated (r0 :: rest)) as rs' eqn:Hrs'.
  destruct rs' as [|r' rs']; [discriminate|]. clear Hrs'.
  cbn [bind]. rewrite (mapM_ok _ _ _ Htok). cbn [bind].
  rewrite (truediv_nonzero _ _ Hover). cbn [bind].
  destruct (np_average_total
    (omap RequestFuncOutput.tpot
       (List.filter (BenchmarkMetrics.finished_with_tpot time_limit) (r' :: rs'))))
    as [average Haverage]. rewrite Haverage. cbn [bind].
  rewrite (mapM_ok _ _ _ Hratio). cbn [bind map].
  destruct (is_ok_inv _ (np_average_cons
    (default NaN (RequestFuncOutput.prefill_decode_ratio r'))
    (map (fun r => default NaN (RequestFuncOutput.prefill_decode_ratio r)) rs')))
    as [? ->]. cbn [bind].
  destruct (is_ok_inv _ (np_mean_cons (RequestFuncOutput.request_latency r')
    (map RequestFuncOutput.request_latency rs'))) as [? ->]. cbn [bind].
  destruct (is_ok_inv _ (np_std_cons (RequestFuncOutput.request_latency r')
    (map RequestFuncOutput.request_latency rs'))) as [? ->]. cbn [bind].
  destruct (is_ok_inv _ (np_percentile_cons (RequestFuncOutput.request_latency r')
    (map RequestFuncOutput.request_latency rs') 90 ltac:(lia))) as [? ->].
  cbn [bind].
  destruct (is_ok_inv _ (np_max_cons (RequestFuncOutput.request_latency r')
    (map RequestFuncOutput.request_latency rs'))) as [? ->]. cbn [bind].
  destruct (is_ok_inv _ (np_percentile_cons (RequestFuncOutput.request_latency r')
    (map RequestFuncOutput.request_latency rs') 99 ltac:(lia))) as [? ->].
  cbn [bind].
  destruct (is_ok_inv _ (np_mean_cons (RequestFuncOutput.ttft r')
    (map RequestFuncOutput.ttft rs'))) as [? ->]. cbn [bind].
  destruct (np_mean_total (omap RequestFuncOutput.tpot (r' :: rs'))) as [? ->].
  cbn [bind]. rewrite (truediv_nonzero _ _ Hover). cbn [bind].
  eexists _, average. repeat split; reflexivity.
Qed.

(** C6 (amended): for a collection that is not empty, whose records all
    have a [request_latency] other than zero, for an [overall_latency]
    other than zero and for every time limit, the aggregation returns a
    [BenchmarkMetrics] whose [num_finished_requests] is the number of
    records given that have [success] set and [global_time <= time_limit];
    failed records and records past the limit are not counted. *)
Theorem gen_benchmark_metrics_num_finished
    (req_func_outputs : list RequestFuncOutput.t)
    (overall_latency time_limit : pyfloat) (gpu_counts : gmap Z Z) :
  req_func_outputs <> [] ->
  Forall (fun r => float_is_zero (RequestFuncOutput.request_latency r) = false)
         req_func_outputs ->
  float_is_zero overall_latency = false ->
  exists metrics : BenchmarkMetrics.t,
    BenchmarkMetrics.gen_benchmark_metrics tokenizer req_func_outputs
      overall_latency time_limit gpu_counts = Ok metrics /\
    BenchmarkMetrics.num_finished_requests metrics
    = Z.of_nat
        (length
           (List.filter
              (fun r => RequestFuncOutput.success r
                        && float_le (RequestFuncOutput.global_time r) time_limit)
              req_func_outputs)).
Proof.
  intros Hne Hlat Hover.
  destruct (gen_benchmark_metrics_returns req_func_outputs overall_latency
              time_limit gpu_counts Hne Hlat Hover)
    as (metrics & _ & Hrun & _).
  exists metrics. split; [exact Hrun|].
  exact (gen_benchmark_metrics_count req_func_outputs overall_latency
           time_limit gpu_counts metrics Hrun).
Qed.

(** C7 (amended): for a collection that is not empty, whose records all
    have a [request_latency] other than zero, and an [overall_latency]
    other than zero: if no record that succeeded within the time limit has
    a [tpot] after the update, the aggregation returns a [BenchmarkMetrics]
    whose [average_finished_topt] is NaN. *)
Theorem gen_benchmark_metrics_nothing_finished
    (req_func_outputs : list RequestFuncOutput.t)
    (overall_latency time_limit : pyfloat) (gpu_counts : gmap Z Z) :
  req_func_outputs <> [] ->
  Forall (fun r => float_is_zero (RequestFuncOutput.request_latency r) = false)
         req_func_outputs ->
  float_is_zero overall_latency = false ->
  Forall (fun r => BenchmarkMetrics.finished_with_tpot time_limit (updated r)
                   = false)
         req_func_outputs ->
  exists metrics : BenchmarkMetrics.t,
    BenchmarkMetrics.gen_benchmark_metrics tokenizer req_func_outputs
      overall_latency time_limit gpu_counts = Ok metrics /\
    BenchmarkMetrics.average_finished_topt metrics = NaN.
Proof.
  intros Hne Hlat Hover Hnone.
  destruct (gen_benchmark_metrics_returns req_func_outputs overall_latency
              time_limit gpu_counts Hne Hlat Hover)
    as (metrics & average & Hrun & Haverage & Hfield).
  exists metrics. split; [exact Hrun|].
  rewrite filter_none in Haverage by (apply Forall_map; exact Hnone).
  change (omap RequestFuncOutput.tpot []) with (@nil pyfloat) in Haverage.
  rewrite np_average_nil in Haverage. congruence.
Qed.

End Aggregation.

Lemma gen_benchmark_metrics_num_finished_witness :
  exists metrics : BenchmarkMetrics.t,
    @BenchmarkMetrics.gen_benchmark_metrics numpy_model char_tokenizer
      [finished_record "abc" 2 (1 # 2) 3; finished_record "abcd" 3 1 150;
       failed_record_after 1]
      (Real 10) (of_int 100) ∅ = Ok metrics /\
    BenchmarkMetrics.num_finished_requests metrics = 1.
Proof.
  apply (@gen_benchmark_metrics_num_finished numpy_model char_tokenizer
           [finished_record "abc" 2 (1 # 2) 3; finished_record "abcd" 3 1 150;
            failed_record_after 1]
           (Real 10) (of_int 100) ∅).
  - discriminate.
  - repeat constructor.
  - reflexivity.
Defined.

(** C6, as stated for every collection, fails: beside a request that
    finished within the limit, one failed record, whose [request_latency]
    is the default [0], makes the aggregation raise [ZeroDivisionError]
    while it updates that record; no [num_finished_requests] is
    produced. *)
Lemma gen_benchmark_metrics_no_count_with_failed_record :
  @BenchmarkMetrics.gen_benchmark_metrics numpy_model char_tokenizer
    [finished_record "abc" 2 (1 # 2) 3; failed_record]
    (Real 10) (of_int 100) ∅ = Raise ZeroDivisionError.
Proof. reflexivity. Qed.

(** C7, as stated, fails: a collection with one failed record, whose
    [request_latency] is the default [0], has no successful record at all,
    and the aggregation raises [ZeroDivisionError] while it updates the
    record. *)
Lemma gen_benchmark_metrics_raises_on_failed_record :
  @BenchmarkMetrics.gen_benchmark_metrics numpy_model char_tokenizer
    [failed_record] (Real 10) (of_int 100) ∅ = Raise ZeroDivisionError.
Proof. reflexivity. Qed.

Lemma gen_benchmark_metrics_nothing_finished_witness :
  exists metrics : BenchmarkMetrics.t,
    @BenchmarkMetrics.gen_benchmark_metrics numpy_model char_tokenizer
      [finished_record "a" 2 (1 # 2) 3; finished_record "abcd" 3 1 150;
       failed_record_after 1]
      (Real 10) (of_int 100) ∅ = Ok metrics /\
    BenchmarkMetrics.average_finished_topt metrics = NaN.
Proof.
  apply (@gen_benchmark_metrics_nothing_finished numpy_model char_tokenizer
           [finished_record "a" 2 (1 # 2) 3; finished_record "abcd" 3 1 150;
            failed_record_after 1]
           (Real 10) (of_int 100) ∅).
  - discriminate.
  - repeat constructor.
  - reflexivity.
  - repeat constructor.
Defined.

(** On an empty collection the aggregation raises, at [np.max] if not
    before. *)
Lemma gen_benchmark_metrics_empty `{Numpy} (tokenizer : string -> list Z)
    (overall_latency time_limit : pyfloat) (gpu_counts : gmap Z Z) :
  is_ok (BenchmarkMetrics.gen_benchmark_metrics tokenizer []
           overall_latency time_limit gpu_counts) = false.
Proof.
  unfold BenchmarkMetrics.gen_benchmark_metrics. cbn.
  repeat match goal with
         | |- is_ok (bind (np_max []) _) = false =>
             rewrite np_max_nil; reflexivity
         | |- is_ok (bind ?e _) = false =>
             destruct e; cbn [bind is_ok]; [|reflexivity]
         end.
Qed.

(** ** [calc_send_out_times] and the load generator *)

Lemma non_decreasing_snoc (pre : list pyfloat) (x y : pyfloat) :
  non_decreasing (pre ++ [x]) = true ->
  float_le x y = true ->
  non_decreasing ((pre ++ [x]) ++ [y]) = true.
Proof.
  intros Hpre Hxy. induction pre as [|a pre IH].
  - simpl. rewrite Hxy. reflexivity.
  - destruct pre as [|b pre].
    + simpl in *. apply andb_true_iff in Hpre as [Hax _].
      rewrite Hax, Hxy. reflexivity.
    + change (float_le a b && non_decreasing ((b :: pre) ++ [x]) = true) in Hpre.
      change (float_le a b && non_decreasing (((b :: pre) ++ [x]) ++ [y]) = true).
      apply andb_true_iff in Hpre as [Hab Hrest].
      rewrite Hab, (IH Hrest). reflexivity.
Qed.

Lemma py_last_snoc {A : Type} (xs : list A) (x : A) : py_last (xs ++ [x]) = Ok x.
Proof. unfold py_last. rewrite last_snoc. reflexivity. Qed.

Section SendOutTimes.
Context `{NumpyRandom}.

(** Under such a rate every interval is a finite number, not negative. *)
Lemma interval_nonneg (request_rate : pyfloat) (i : nat) :
  positive_rate request_rate ->
  exists d : Q,
    (if float_is_inf request_rate then Ok (of_int 0)
     else do scale <- truediv (of_int 1) request_rate;
          np_random_exponential i scale) = Ok (Real d) /\ (0 <= d)%Q.
Proof.
  intros [->|(r & -> & Hr)].
  - exists (inject_Z 0). split; [reflexivity | apply Qle_refl].
  - simpl float_is_inf. cbv iota.
    assert (float_is_zero (Real r) = false) as Hnz.
    { simpl. destruct (Qeq_bool r 0) eqn:E; [|reflexivity].
      apply Qeq_bool_eq in E. rewrite E in Hr. exfalso.
      exact (Qlt_irrefl 0 Hr). }
    rewrite (truediv_nonzero _ _ Hnz). cbn [bind float_quot of_int].
    apply np_random_exponential_pos.
    apply Qmult_lt_0_compat; [reflexivity | apply Qinv_lt_0_compat, Hr].
Qed.

Lemma send_out_loop_shape (request_rate : pyfloat) (indices : list nat) :
  positive_rate request_rate ->
  forall (pre : list pyfloat) (q : Q),
    non_decreasing (pre ++ [Real q]) = true ->
    exists (res : list pyfloat) (q' : Q),
      send_out_loop request_rate indices (pre ++ [Real q])
      = Ok (res ++ [Real q']) /\
      length res = (length pre + length indices)%nat /\
      non_decreasing (res ++ [Real q']) = true /\
      (pre ++ [Real q]) `prefix_of` (res ++ [Real q']).
Proof.
  intros Hrate. induction indices as [|i indices IH]; intros pre q Hsorted.
  - exists pre, q. simpl. repeat split; [lia | exact Hsorted | reflexivity].
  - destruct (interval_nonneg request_rate i Hrate) as (d & Hint & Hd).
    cbn [send_out_loop]. rewrite Hint. cbn [bind].
    rewrite py_last_snoc. cbn [bind float_add].
    destruct (IH (pre ++ [Real q]) (q + d)%Q) as (res & q' & Hrun & Hlen & Hs & Hp).
    { apply non_decreasing_snoc; [exact Hsorted|].
      apply (float_le_add_nonneg q d Hd). }
    exists res, q'. rewrite Hrun. repeat split.
    + rewrite Hlen, length_app. simpl. lia.
    + exact Hs.
    + etransitivity; [|exact Hp]. apply prefix_app_r. reflexivity.
Qed.

(** C9 (amended): for every request list and every request rate that is
    positive, finite or infinite, [calc_send_out_times] returns a list of
    [max(len(requests), 1) + 1] elements, that is [len(requests) + 1] for a
    list that is not empty and [2] for the empty one; its first element is
    [0], its elements are non-decreasing and its last two are equal. *)
Theorem calc_send_out_times_shape {Req : Type} (requests : list Req)
    (request_rate exp_time : pyfloat) :
  positive_rate request_rate ->
  exists times : list pyfloat,
    calc_send_out_times requests request_rate exp_time = Ok times /\
    length times = S (Nat.max 1 (length requests)) /\
    head times = Some (of_int 0) /\
    non_decreasing times = true /\
    exists (pre : list pyfloat) (x : pyfloat), times = pre ++ [x; x].
Proof.
  intros Hrate. unfold calc_send_out_times.
  destruct (send_out_loop_shape request_rate
              (seq 0 (length requests - 1)) Hrate [] (inject_Z 0) eq_refl)
    as (res & q' & Hrun & Hlen & Hsorted & Hprefix).
  change ([] ++ [Real (inject_Z 0)]) with [of_int 0] in Hrun, Hprefix.
  rewrite Hrun. cbn [bind]. rewrite py_last_snoc. cbn [bind].
  eexists. split; [reflexivity|]. repeat split.
  - rewrite !length_app, Hlen, length_seq. simpl. lia.
  - destruct Hprefix as [k ->]. reflexivity.
  - apply non_decreasing_snoc; [exact Hsorted | apply float_le_refl_real].
  - exists res, (Real q'). rewrite <- app_assoc. reflexivity.
Qed.

End SendOutTimes.

(** C9, as stated, fails on the empty request list: [range(-1)] is empty,
    so the list is [[0]] with its last element repeated, two elements
    where [len(requests) + 1] is one. *)
Lemma calc_send_out_times_empty :
  @calc_send_out_times random_model nat [] (Real 2) PInf
  = Ok [of_int 0; of_int 0] /\
  length [of_int 0; of_int 0] <> (length (@nil nat) + 1)%nat.
Proof. split; [reflexivity | discriminate]. Qed.

Lemma calc_send_out_times_shape_witness :
  positive_rate (Real 2) /\
  exists times : list pyfloat,
    @calc_send_out_times random_model nat [10; 20; 30; 40]%nat (Real 2) PInf
    = Ok times /\
    length times = S (Nat.max 1 (length [10; 20; 30; 40]%nat)) /\
    head times = Some (of_int 0) /\
    non_decreasing times = true /\
    exists (pre : list pyfloat) (x : pyfloat), times = pre ++ [x; x].
Proof.
  assert (positive_rate (Real 2)) as Hrate.
  { right. exists 2%Q. split; reflexivity. }
  split; [exact Hrate|].
  apply (@calc_send_out_times_shape random_model nat [10; 20; 30; 40]%nat
           (Real 2) PInf Hrate).
Defined.

(** A rate of zero is a division by zero as soon as an interval is drawn. *)
Lemma calc_send_out_times_zero_rate `{NumpyRandom} {Req : Type}
    (r r' : Req) (requests : list Req) (exp_time : pyfloat) :
  calc_send_out_times (r :: r' :: requests) (of_int 0) exp_time
  = Raise ZeroDivisionError.
Proof. reflexivity. Qed.

Section LoadGenerator.
Context `{Collaborators} `{NumpyRandom} {Req : Type}.

Lemma get_request_head (requests : list Req) (request_rate : pyfloat) (k : nat) :
  head (ModelDetails.get_request requests request_rate k).1
  = CreateTask <$> head requests.
Proof.
  destruct requests as [|r rest]; [reflexivity|]. simpl.
  destruct (float_is_inf request_rate).
  - destruct (ModelDetails.get_request rest request_rate k). reflexivity.
  - destruct (bind _ _); [|reflexivity].
    destruct (ModelDetails.get_request rest request_rate (S k)). reflexivity.
Qed.

(** The tasks are created in the order of the requests; all of them when
    the generator runs to its end. *)
Lemma get_request_order (requests : list Req) (request_rate : pyfloat) (k : nat) :
  created (ModelDetails.get_request requests request_rate k).1
    `prefix_of` requests /\
  match (ModelDetails.get_request requests request_rate k).2 with
  | Ok _ => created (ModelDetails.get_request requests request_rate k).1
            = requests
  | Raise _ => True
  end.
Proof.
  revert k. induction requests as [|r rest IH]; intros k.
  - split; reflexivity.
  - simpl. destruct (float_is_inf request_rate).
    + destruct (IH k) as [Hp Hall].
      destruct (ModelDetails.get_request rest request_rate k) as [events o].
      simpl in *. split; [apply prefix_cons, Hp|].
      destruct o; [f_equal; exact Hall | exact I].
    + destruct (bind _ _).
      * destruct (IH (S k)) as [Hp Hall].
        destruct (ModelDetails.get_request rest request_rate (S k)) as [events o].
        simpl in *. split; [apply prefix_cons, Hp|].
        destruct o; [f_equal; exact Hall | exact I].
      * simpl. split; [apply prefix_cons, prefix_nil | exact I].
Qed.

(** At an infinite rate the generator never sleeps. *)
Lemma get_request_burst (requests : list Req) (k : nat) :
  ModelDetails.get_request requests PInf k = (map CreateTask requests, Ok tt).
Proof.
  induction requests as [|r rest IH]; [reflexivity|].
  simpl. rewrite IH. reflexivity.
Qed.

Lemma send_out_loop_burst (indices : list nat) (n : nat) :
  send_out_loop PInf indices (replicate (S n) (of_int 0))
  = Ok (replicate (S n + length indices) (of_int 0)).
Proof.
  revert n. induction indices as [|i indices IH]; intros n.
  - simpl. rewrite Nat.add_0_r. reflexivity.
  - cbn [send_out_loop float_is_inf bind].
    rewrite replicate_S_end, py_last_snoc. cbn [bind].
    change (float_add (of_int 0) (of_int 0)) with (of_int 0).
    rewrite <- !replicate_S_end, IH. do 2 f_equal. simpl length. lia.
Qed.

(** C8: the first task is created before any sleep, whatever the rate; the
    tasks are created in the order of the requests; at an infinite rate
    the generator creates a task for every request, in order, without any
    sleep in between, and every send-out time computed by
    [calc_send_out_times] is zero. *)
Theorem load_generator_schedule (self : ModelDetails.t)
    (requests : list Req) (request_rate exp_time now now' : pyfloat) :
  let run rate :=
    ModelDetails.async_generate_batch_request_per_sec self requests rate
                                                      now now' in
  head (run request_rate).1.2 = CreateTask <$> head requests /\
  created (run request_rate).1.2 `prefix_of` requests /\
  match (run request_rate).2 with
  | Ok _ => created (run request_rate).1.2 = requests
  | Raise _ => True
  end /\
  (run PInf).1.2 = map CreateTask requests /\
  (run PInf).2 = Ok tt /\
  calc_send_out_times requests PInf exp_time
  = Ok (replicate (S (Nat.max 1 (length requests))) (of_int 0)).
Proof.
  intros run. subst run. cbv beta.
  unfold ModelDetails.async_generate_batch_request_per_sec.
  rewrite get_request_burst.
  pose proof (get_request_head requests request_rate 0) as Hhead.
  pose proof (get_request_order requests request_rate 0) as [Hprefix Hall].
  destruct (ModelDetails.get_request requests request_rate 0) as [events o].
  simpl in *. repeat split; try assumption.
  unfold calc_send_out_times.
  rewrite (send_out_loop_burst _ 0). cbn [bind].
  rewrite replicate_S_end, py_last_snoc. cbn [bind].
  rewrite <- !replicate_S_end, length_seq.
  change (of_int 0 :: replicate (Nat.max 1 (length requests)) (of_int 0))
    with (replicate (S (Nat.max 1 (length requests))) (of_int 0)).
  do 2 f_equal. lia.
Qed.

End LoadGenerator.

(** ** The manager: selection, provisioning, cache flush, dispatch *)

Section Manager.
Context `{Collaborators}.

(** C10: [select_runtime_with_identifiers] leaves the dict without the
    keys ['experiment_id'] and ['request_id'] and with every other entry
    as it was, whether or not the router and the indexing succeed. *)
Theorem select_runtime_with_identifiers_pops (self : ModelDetails.t) (k : nat)
    (text : string) (sampling_params : gmap string pyval)
    (input_ids : option (list Z)) :
  let after :=
    (ModelDetails.select_runtime_with_identifiers self k text sampling_params
                                                  input_ids).1.1.2 in
  after = delete "request_id" (delete "experiment_id" sampling_params) /\
  after !! "experiment_id" = None /\
  after !! "request_id" = None /\
  forall key : string,
    key <> "experiment_id" -> key <> "request_id" ->
    after !! key = sampling_params !! key.
Proof.
  intros after. subst after.
  unfold ModelDetails.select_runtime_with_identifiers, dict_pop.
  destruct (select_runtime _ _ _ _ _) as [router' runtime_id]. cbn [fst snd].
  split; [reflexivity|]. split; [|split].
  - rewrite lookup_delete_ne by discriminate. apply lookup_delete_eq.
  - apply lookup_delete_eq.
  - intros key Hexp Hreq.
    rewrite lookup_delete_ne by congruence.
    apply lookup_delete_ne. congruence.
Qed.

(** The call to the router is the only event of a selection. *)
Lemma select_runtime_with_identifiers_events (self : ModelDetails.t) (k : nat)
    (text : string) (sampling_params : gmap string pyval)
    (input_ids : option (list Z)) :
  exists experiment_id request_id : pyval,
    (ModelDetails.select_runtime_with_identifiers self k text sampling_params
                                                  input_ids).1.2
    = [Select text experiment_id request_id input_ids].
Proof.
  unfold ModelDetails.select_runtime_with_identifiers, dict_pop.
  destruct (select_runtime _ _ _ _ _) as [router' runtime_id]. cbn [fst snd].
  eauto.
Qed.

Lemma select_runtime_with_identifiers_start_time (self : ModelDetails.t)
    (k : nat) (text : string) (sampling_params : gmap string pyval)
    (input_ids : option (list Z)) :
  ModelDetails.start_time
    (ModelDetails.select_runtime_with_identifiers self k text sampling_params
                                                  input_ids).1.1.1.1
  = ModelDetails.start_time self.
Proof.
  unfold ModelDetails.select_runtime_with_identifiers, dict_pop.
  destruct (select_runtime _ _ _ _ _) as [router' runtime_id]. reflexivity.
Qed.

(** *** [clear_kv_cache] *)

Lemma flush_each_all_reachable (runtimes : list EndpointRuntimeInterface) :
  Forall (fun r => requests_get (flush_cache_url r) = Ok tt) runtimes ->
  ModelDetails.flush_each runtimes = (map flush_cache_url runtimes, Ok tt).
Proof.
  induction 1 as [|r rest Hr _ IH]; simpl; [reflexivity|].
  rewrite Hr, IH. reflexivity.
Qed.

(** C2 (amended): [clear_kv_cache] issues the flush call to the runtimes in
    list order up to and including the first one that cannot be reached;
    the exception raised there reaches the caller, and no call is issued
    to the runtimes after it. *)
Theorem clear_kv_cache_stops_at_unreachable (self : ModelDetails.t)
    (before after : list EndpointRuntimeInterface)
    (unreachable : EndpointRuntimeInterface) (e : exn) :
  ModelDetails.runtimes self = before ++ unreachable :: after ->
  Forall (fun r => requests_get (flush_cache_url r) = Ok tt) before ->
  requests_get (flush_cache_url unreachable) = Raise e ->
  ModelDetails.clear_kv_cache self
  = (map flush_cache_url (before ++ [unreachable]), Raise e).
Proof.
  intros Hruntimes Hbefore Hdown. unfold ModelDetails.clear_kv_cache.
  rewrite Hruntimes. clear Hruntimes.
  induction Hbefore as [|r rest Hr _ IH]; simpl.
  - rewrite Hdown. reflexivity.
  - rewrite Hr, IH. reflexivity.
Qed.

(** When every endpoint answers, every runtime is flushed. *)
Lemma clear_kv_cache_all_reachable (self : ModelDetails.t) :
  Forall (fun r => requests_get (flush_cache_url r) = Ok tt)
         (ModelDetails.runtimes self) ->
  ModelDetails.clear_kv_cache self
  = (map flush_cache_url (ModelDetails.runtimes self), Ok tt).
Proof. apply flush_each_all_reachable. Qed.

End Manager.

(** C2, as stated, fails: with the first of two endpoints unreachable the
    loop ends at the first call with [ConnectionError]; the second
    endpoint, which would answer, is never called. *)
Lemma clear_kv_cache_aborts_at_unreachable :
  ModelDetails.clear_kv_cache
    (two_runtimes "http://down-node:30000" "http://10.0.0.2:30000")
  = (["http://down-node:30000/flush_cache"], Raise ConnectionError) /\
  @requests_get sample_collaborators "http://10.0.0.2:30000/flush_cache" = Ok tt.
Proof. split; reflexivity. Qed.

Lemma clear_kv_cache_stops_at_unreachable_witness :
  ModelDetails.clear_kv_cache
    (ModelDetails.mk sample_collaborators "model" []
       [runtime_at "http://10.0.0.1:30000"; runtime_at "http://down-node:30000";
        runtime_at "http://10.0.0.3:30000"]
       (0%nat, 3%nat) [] None [] None)
  = (["http://10.0.0.1:30000/flush_cache"; "http://down-node:30000/flush_cache"],
     Raise ConnectionError).
Proof.
  apply (@clear_kv_cache_stops_at_unreachable sample_collaborators _
           [runtime_at "http://10.0.0.1:30000"]
           [runtime_at "http://10.0.0.3:30000"]
           (runtime_at "http://down-node:30000") ConnectionError).
  - reflexivity.
  - repeat constructor.
  - reflexivity.
Defined.

(** *** [load_runtimes] *)

Section Provisioning.
Context `{Collaborators}.

(** The call [URLRuntime(config.url, cuda_devices=..., context_length=..., ...)]
    never returns an object: [cuda_devices] is not a parameter of
    [URLRuntime.__init__]. *)
Lemma URLRuntime_new_raises (u : string) (gpu_id : Z)
    (kwargs : gmap string pyval) :
  URLRuntime_new u gpu_id kwargs = Raise TypeError.
Proof.
  unfold URLRuntime_new. destruct (keywords_clash _ _); reflexivity.
Qed.

Lemma SSHRuntime_new_class (model_path : string)
    (ssh : gmap string pyval) (gpu_id : Z) (kwargs : gmap string pyval)
    (runtime : EndpointRuntimeInterface) :
  SSHRuntime_new model_path ssh gpu_id kwargs = Ok runtime ->
  class_of runtime = SSHRuntime.
Proof.
  unfold SSHRuntime_new. destruct (keywords_clash _ _); [discriminate|].
  destruct (SSHRuntimeManager_init _ _ _ _ _ _) as [[[rid u] g]|e];
    [|discriminate].
  simpl. intros [= <-]. reflexivity.
Qed.

(** C3 (amended): for every GPUConfig with [use_ssh] set, with or without
    a url, provisioning takes the remote branch: the runtime is the one
    [SSHRuntime] builds from the slot's [ssh_config], it is appended to the
    runtime list when the remote start returns, and the url of the slot is
    not read. *)
Theorem load_runtimes_ssh_first (self : ModelDetails.t) (model_path : string)
    (config : GPUConfig) (rest : list GPUConfig) (kwargs : gmap string pyval) :
  use_ssh config = true ->
  ModelDetails.load_runtime model_path kwargs config
  = SSHRuntime_new model_path (ssh_config config) (gpu_id config) kwargs /\
  (forall runtime : EndpointRuntimeInterface,
      ModelDetails.load_runtime model_path kwargs config = Ok runtime ->
      class_of runtime = SSHRuntime) /\
  ModelDetails.load_runtimes self model_path (config :: rest) kwargs
  = match SSHRuntime_new model_path (ssh_config config) (gpu_id config) kwargs with
    | Ok runtime =>
        ModelDetails.load_runtimes
          (ModelDetails.set_runtimes (ModelDetails.runtimes self ++ [runtime]) self)
          model_path rest kwargs
    | Raise e => (self, Raise e)
    end.
Proof.
  intros Hssh.
  assert (ModelDetails.load_runtime model_path kwargs config
          = SSHRuntime_new model_path (ssh_config config) (gpu_id config) kwargs)
    as Hload.
  { unfold ModelDetails.load_runtime. rewrite Hssh. reflexivity. }
  split; [exact Hload|]. split.
  - intros runtime Hok. rewrite Hload in Hok.
    exact (SSHRuntime_new_class _ _ _ _ _ Hok).
  - cbn [ModelDetails.load_runtimes]. rewrite Hload. reflexivity.
Qed.

(** Without [use_ssh], a slot with a url ends provisioning with a
    [TypeError]. *)
Lemma load_runtime_url_raises (model_path : string)
    (kwargs : gmap string pyval) (config : GPUConfig) :
  use_ssh config = false ->
  url_truthy (gpu_url config) = true ->
  ModelDetails.load_runtime model_path kwargs config = Raise TypeError.
Proof.
  intros Hssh Hurl. unfold ModelDetails.load_runtime.
  rewrite Hssh, Hurl. apply URLRuntime_new_raises.
Qed.

End Provisioning.

(** C3, as stated, fails: for a slot with both ssh settings and a url,
    [use_ssh] is tested first; the runtime appended is an [SSHRuntime] at
    the host of the ssh settings, not a [URLRuntime] at the url. *)
Lemma load_runtimes_prefers_ssh :
  let loaded :=
    ModelDetails.load_runtimes
      (@ModelDetails.init sample_collaborators "model"
                          [ssh_and_url_config] (0%nat, 1%nat))
      "model" [ssh_and_url_config] ∅ in
  loaded.2 = Ok tt /\
  map class_of (ModelDetails.runtimes loaded.1) = [SSHRuntime] /\
  map url (ModelDetails.runtimes loaded.1) = ["http://10.0.0.7:30000"] /\
  gpu_url ssh_and_url_config = Some "http://10.0.0.5:30000".
Proof. vm_compute. repeat split; reflexivity. Qed.

Lemma load_runtimes_ssh_first_witness :
  use_ssh ssh_and_url_config = true /\
  ModelDetails.load_runtime (H := sample_collaborators) "model" ∅
                            ssh_and_url_config
  = SSHRuntime_new (H := sample_collaborators) "model"
                   (ssh_config ssh_and_url_config) 0 ∅.
Proof.
  split; [reflexivity|].
  apply (@load_runtimes_ssh_first sample_collaborators
           (@ModelDetails.init sample_collaborators "model"
              [ssh_and_url_config] (0%nat, 1%nat))
           "model" ssh_and_url_config [] ∅ eq_refl).
Defined.

(** *** [async_send_request] *)

Section Dispatch.
Context `{Collaborators}.

(** The loop posts again, to the same address and with the same payload,
    for as long as the responses carry an error, and leaves with the first
    one that does not. *)
Lemma send_loop_retries (generate_url text : string)
    (sampling_params : gmap string pyval) (rid : string)
    (errors : list attempt) (good : attempt) (body : gmap string pyval)
    (rest : list attempt) :
  Forall error_response errors ->
  a_output good = Ok body ->
  body !! "error" = None ->
  ModelDetails.send_loop generate_url text sampling_params rid
                         (errors ++ good :: rest)
  = (replicate (S (length errors)) (Post generate_url text sampling_params rid),
     Returned (good, body)).
Proof.
  intros Herrors Hgood Hbody.
  induction Herrors as [|a errors (b & Hb & Herr) _ IH]; simpl.
  - rewrite Hgood, Hbody. reflexivity.
  - rewrite Hb, Herr, IH. reflexivity.
Qed.

(** While every response carries an error the loop goes on. *)
Lemma send_loop_keeps_retrying (generate_url text : string)
    (sampling_params : gmap string pyval) (rid : string)
    (errors : list attempt) :
  Forall error_response errors ->
  ModelDetails.send_loop generate_url text sampling_params rid errors
  = (replicate (length errors) (Post generate_url text sampling_params rid),
     Retrying).
Proof.
  induction 1 as [|a errors (b & Hb & Herr) _ IH]; simpl; [reflexivity|].
  rewrite Hb, Herr, IH. reflexivity.
Qed.

(** The statements after the loop add no ['error'] key. *)
Lemma finish_no_error (a : attempt) (body output : gmap string pyval) :
  body !! "error" = None ->
  ModelDetails.finish a body = Ok output ->
  output !! "error" = None.
Proof.
  intros Hbody Hfinish. unfold ModelDetails.finish in Hfinish.
  repeat match type of Hfinish with
         | bind _ _ = Ok _ =>
             apply bind_ok_inv in Hfinish; destruct Hfinish as (? & _ & Hfinish)
         end.
  injection Hfinish as <-.
  rewrite !lookup_insert_ne by discriminate. exact Hbody.
Qed.

(** C1 (amended): when the responses to a request carry an ['error'] field
    until one does not, [async_send_request] selects a runtime once, posts
    the same payload with the same request identifier to that one runtime
    once for each response, and ends with the response that has no error:
    what it returns has no ['error'] key. *)
Theorem async_send_request_retries (self : ModelDetails.t) (k : nat)
    (text : string) (sampling_params : gmap string pyval)
    (input_ids : option (list Z)) (sent_at started : pyfloat)
    (errors : list attempt) (good : attempt) (body : gmap string pyval)
    (rest : list attempt) (runtime : EndpointRuntimeInterface) :
  let rid := uuid4_hex k in
  let selection :=
    ModelDetails.select_runtime_with_identifiers self (S k) text
      (<["request_id" := VStr rid]> sampling_params) input_ids in
  let run :=
    ModelDetails.async_send_request self k text sampling_params input_ids
      sent_at (errors ++ good :: rest) in
  selection.2 = Ok runtime ->
  ModelDetails.start_time self = Some started ->
  Forall error_response errors ->
  a_output good = Ok body ->
  body !! "error" = None ->
  (exists experiment_id request_id : pyval,
      run.1.2
      = Select text experiment_id request_id input_ids
        :: replicate (S (length errors))
             (Post (generate_url runtime) text selection.1.1.2 rid)) /\
  run.2 = match ModelDetails.finish good body with
          | Ok output => Returned output
          | Raise e => Raised e
          end /\
  forall output : gmap string pyval,
    run.2 = Returned output -> output !! "error" = None.
Proof.
  intros rid selection run Hsel Hstart Herrors Hgood Hbody.
  pose proof (select_runtime_with_identifiers_events self (S k) text
                (<["request_id" := VStr rid]> sampling_params) input_ids)
    as (experiment_id & request_id & Hevents).
  pose proof (select_runtime_with_identifiers_start_time self (S k) text
                (<["request_id" := VStr rid]> sampling_params) input_ids)
    as Hstart'.
  fold selection in Hevents, Hstart'. rewrite Hstart in Hstart'.
  subst run. unfold ModelDetails.async_send_request.
  fold rid. fold selection.
  destruct selection as [[[[self' k'] sampling_params'] selected] chosen].
  cbn [fst snd] in *. subst chosen selected. rewrite Hstart'.
  rewrite (send_loop_retries _ _ _ _ _ _ _ _ Herrors Hgood Hbody).
  cbn [fst snd]. split; [eauto|]. split; [reflexivity|].
  intros output Hout.
  destruct (ModelDetails.finish good body) as [output'|e] eqn:Hfinish;
    [|discriminate].
  injection Hout as <-. exact (finish_no_error _ _ _ Hbody Hfinish).
Qed.

End Dispatch.

(** C1, as stated, fails: the first runtime answers with an error, then
    accepts.  The router is called once; both posts go to the first
    runtime, although the round-robin router would have picked the second
    one had it been asked again. *)
Lemma async_send_request_posts_to_same_runtime :
  let run :=
    ModelDetails.async_send_request
      (two_runtimes "http://10.0.0.1:30000" "http://10.0.0.2:30000") 0
      "hello" {[ "max_new_tokens" := VInt 16 ]} None (Real 1)
      [attempt_of 1 error_body; attempt_of 2 good_body] in
  posted_to run.1.2
  = ["http://10.0.0.1:30000/generate"; "http://10.0.0.1:30000/generate"] /\
  length (List.filter is_select run.1.2) = 1%nat /\
  selected_anew run.1.2 = false /\
  (round_robin (ModelDetails.request_router run.1.1.1.1)).2 = Ok 1.
Proof. vm_compute. repeat split; reflexivity. Qed.

Lemma async_send_request_retries_witness :
  let self := two_runtimes "http://10.0.0.1:30000" "http://10.0.0.2:30000" in
  let sampling_params : gmap string pyval := {[ "max_new_tokens" := VInt 16 ]} in
  let rid := @uuid4_hex sample_collaborators 0 in
  let selection :=
    ModelDetails.select_runtime_with_identifiers self 1 "hello"
      (<["request_id" := VStr rid]> sampling_params) None in
  let run :=
    ModelDetails.async_send_request self 0 "hello" sampling_params None
      (Real 1) ([attempt_of 1 error_body] ++ attempt_of 2 good_body :: []) in
  (exists experiment_id request_id : pyval,
      run.1.2
      = Select "hello" experiment_id request_id None
        :: replicate (S (length [attempt_of 1 error_body]))
             (Post (generate_url (runtime_at "http://10.0.0.1:30000")) "hello"
                   selection.1.1.2 rid)) /\
  run.2 = match ModelDetails.finish (attempt_of 2 good_body) good_body with
          | Ok output => Returned output
          | Raise e => Raised e
          end /\
  forall output : gmap string pyval,
    run.2 = Returned output -> output !! "error" = None.
Proof.
  apply (@async_send_request_retries sample_collaborators
           (two_runtimes "http://10.0.0.1:30000" "http://10.0.0.2:30000") 0
           "hello" {[ "max_new_tokens" := VInt 16 ]} None (Real 1) (of_int 0)
           [attempt_of 1 error_body] (attempt_of 2 good_body) good_body []
           (runtime_at "http://10.0.0.1:30000")).
  - vm_compute. reflexivity.
  - reflexivity.
  - repeat constructor. exists error_body. split; vm_compute; reflexivity.
  - reflexivity.
  - vm_compute. reflexivity.
Defined.

(** * Further properties of the code *)

(** ** [RequestFuncOutput] *)

Section RecordProperties.
Import RequestFuncOutput.
Variable tokenizer : string -> list Z.

(** X1: a second [update_metrics] on a record changes nothing and ends as
    the first one did. *)
Theorem update_metrics_idempotent (self : t) :
  update_metrics tokenizer (update_metrics tokenizer self).1
  = update_metrics tokenizer self.
Proof.
  rewrite (update_metrics_unfold tokenizer (update_metrics tokenizer self).1).
  assert (resolved_output_len tokenizer (update_metrics tokenizer self).1
          = resolved_output_len tokenizer self) as ->.
  { unfold resolved_output_len at 1. rewrite update_metrics_output_len.
    reflexivity. }
  rewrite update_metrics_request_latency.
  rewrite (update_metrics_unfold tokenizer self). destruct self as
    [text ok latency first itl plen err gtime olen tp ratio sent dest].
  cbn [request_latency ttft].
  destruct (float_is_zero latency), (1 <? _); reflexivity.
Qed.

Lemma update_metrics_keeps (self : t) :
  let after := (update_metrics tokenizer self).1 in
  generated_text after = generated_text self /\
  success after = success self /\
  request_latency after = request_latency self /\
  ttft after = ttft self /\
  itl after = itl self /\
  prompt_len after = prompt_len self /\
  error after = error self /\
  global_time after = global_time self /\
  send_out_time after = send_out_time self /\
  route_dest after = route_dest self.
Proof.
  intros after. subst after. rewrite update_metrics_unfold.
  destruct (float_is_zero _), (1 <? _); repeat split; reflexivity.
Qed.

(** X2: [update_metrics] writes [output_len], [tpot] and
    [prefill_decode_ratio] and no other field, whether it raises or not. *)
Theorem update_metrics_frame (self : t) :
  let after := (update_metrics tokenizer self).1 in
  generated_text after = generated_text self /\
  success after = success self /\
  request_latency after = request_latency self /\
  ttft after = ttft self /\
  itl after = itl self /\
  prompt_len after = prompt_len self /\
  error after = error self /\
  global_time after = global_time self /\
  send_out_time after = send_out_time self /\
  route_dest after = route_dest self.
Proof. exact (update_metrics_keeps self). Qed.

(** On a record whose [output_len] is set the tokenizer is not consulted. *)
Lemma update_metrics_ignores_tokenizer (other : string -> list Z)
    (n : Z) (self : t) :
  update_metrics tokenizer (set_output_len (Some n) self)
  = update_metrics other (set_output_len (Some n) self).
Proof. reflexivity. Qed.

(** X3: once [update_metrics] has returned, [overall_throughput] does not
    raise: it is the sum of [prompt_len] and the resolved [output_len]
    over [request_latency]. *)
Theorem overall_throughput_after_update (self : t) :
  (update_metrics tokenizer self).2 = Ok tt ->
  overall_throughput (update_metrics tokenizer self).1
  = Ok (float_quot
          (of_int (prompt_len self + resolved_output_len tokenizer self))
          (request_latency self)).
Proof.
  rewrite update_metrics_result. intros Hok.
  destruct (float_is_zero (request_latency self)) eqn:Hlat; [discriminate|].
  unfold overall_throughput, total_tokens.
  rewrite update_metrics_output_len. cbn [bind].
  pose proof (update_metrics_keeps self) as (_ & _ & Hl & _ & _ & Hp & _).
  rewrite Hl, Hp. apply truediv_nonzero, Hlat.
Qed.

(** Before the update a record without [output_len] has no
    [overall_throughput]: the sum with [None] is a [TypeError], also when
    [request_latency] is zero. *)
Lemma overall_throughput_unresolved (self : t) :
  output_len self = None -> overall_throughput self = Raise TypeError.
Proof.
  intros Hlen. unfold overall_throughput, total_tokens. rewrite Hlen.
  reflexivity.
Qed.

End RecordProperties.

Lemma overall_throughput_after_update_witness :
  (RequestFuncOutput.update_metrics char_tokenizer
     (finished_record "abc" 2 (1 # 2) 3)).2 = Ok tt /\
  RequestFuncOutput.overall_throughput
    (RequestFuncOutput.update_metrics char_tokenizer
       (finished_record "abc" 2 (1 # 2) 3)).1
  = Ok (float_quot
          (of_int (RequestFuncOutput.prompt_len (finished_record "abc" 2 (1 # 2) 3)
                   + RequestFuncOutput.resolved_output_len char_tokenizer
                       (finished_record "abc" 2 (1 # 2) 3)))
          (RequestFuncOutput.request_latency (finished_record "abc" 2 (1 # 2) 3))).
Proof.
  split; [reflexivity|].
  apply (overall_throughput_after_update char_tokenizer
           (finished_record "abc" 2 (1 # 2) 3)).
  reflexivity.
Defined.

(** ** [BenchmarkMetrics.gen_benchmark_metrics] *)

Lemma float_le_trans (x y z : pyfloat) :
  float_le x y = true -> float_le y z = true -> float_le x z = true.
Proof.
  destruct x, y, z; simpl; try discriminate; try reflexivity.
  intros Hxy Hyz. apply Qle_bool_iff. apply Qle_bool_iff in Hxy, Hyz.
  exact (Qle_trans _ _ _ Hxy Hyz).
Qed.

Lemma omap_length_le {A B : Type} (f : A -> option B) (xs : list A) :
  (length (omap f xs) <= length xs)%nat.
Proof.
  induction xs as [|x xs IH]; [reflexivity|].
  change (omap f (x :: xs))
    with (match f x with Some y => y :: omap f xs | None => omap f xs end).
  destruct (f x); simpl; lia.
Qed.

Lemma filter_length_mono {A : Type} (p q : A -> bool) (xs : list A) :
  (forall x, p x = true -> q x = true) ->
  (length (List.filter p xs) <= length (List.filter q xs))%nat.
Proof.
  intros Hpq. induction xs as [|x xs IH]; simpl; [lia|].
  destruct (p x) eqn:Hp.
  - rewrite (Hpq x Hp). simpl. lia.
  - destruct (q x); simpl; lia.
Qed.

Section AggregationProperties.
Context `{Numpy}.
Variable tokenizer : string -> list Z.

Local Abbreviation updated :=
  (fun r => (RequestFuncOutput.update_metrics tokenizer r).1).

(** The update loop raises exactly on a record with a zero
    [request_latency], and then with [ZeroDivisionError]. *)
Lemma update_all_result (rs : list RequestFuncOutput.t) :
  (BenchmarkMetrics.update_all tokenizer rs).2 =
  if forallb (fun r => negb (float_is_zero (RequestFuncOutput.request_latency r))) rs
  then Ok tt else Raise ZeroDivisionError.
Proof.
  induction rs as [|r rs IH]; [reflexivity|]. simpl.
  pose proof (update_metrics_result tokenizer r) as Hres.
  destruct (RequestFuncOutput.update_metrics tokenizer r) as [r' o].
  simpl in Hres. subst o.
  destruct (float_is_zero (RequestFuncOutput.request_latency r)); simpl;
    [reflexivity|].
  destruct (BenchmarkMetrics.update_all tokenizer rs) as [rest o].
  exact IH.
Qed.

Lemma forallb_nonzero (rs : list RequestFuncOutput.t) :
  forallb (fun r => negb (float_is_zero (RequestFuncOutput.request_latency r))) rs
  = true <->
  Forall (fun r => float_is_zero (RequestFuncOutput.request_latency r) = false) rs.
Proof.
  rewrite forallb_forall, List.Forall_forall. split; intros Hall r Hr.
  - apply negb_true_iff, Hall, Hr.
  - apply negb_true_iff, Hall, Hr.
Qed.

Lemma total_tokens_updated (rs : list RequestFuncOutput.t) :
  mapM RequestFuncOutput.total_tokens (map updated rs)
  = Ok (map (fun r => RequestFuncOutput.prompt_len r
                      + RequestFuncOutput.resolved_output_len tokenizer r) rs).
Proof.
  induction rs as [|r rs IH]; [reflexivity|]. simpl. rewrite IH.
  unfold RequestFuncOutput.total_tokens at 1.
  rewrite update_metrics_output_len.
  pose proof (update_metrics_keeps tokenizer r) as (_ & _ & _ & _ & _ & Hp & _).
  simpl in Hp. rewrite Hp. reflexivity.
Qed.

(** Everything a returned [BenchmarkMetrics] holds, read off the run. *)
Lemma gen_benchmark_metrics_inv
    (rs : list RequestFuncOutput.t) (overall_latency time_limit : pyfloat)
    (gpu_counts : gmap Z Z) (m : BenchmarkMetrics.t) :
  BenchmarkMetrics.gen_benchmark_metrics tokenizer rs overall_latency
    time_limit gpu_counts = Ok m ->
  Forall (fun r => float_is_zero (RequestFuncOutput.request_latency r) = false) rs /\
  float_is_zero overall_latency = false /\
  BenchmarkMetrics.all_results m = map updated rs /\
  BenchmarkMetrics.ttfts m = map RequestFuncOutput.ttft rs /\
  BenchmarkMetrics.tpots m = omap RequestFuncOutput.tpot (map updated rs) /\
  BenchmarkMetrics.throughput_tok_sec m
  = float_quot
      (of_int (py_sum (map (fun r => RequestFuncOutput.prompt_len r
                              + RequestFuncOutput.resolved_output_len tokenizer r)
                           rs)))
      overall_latency /\
  BenchmarkMetrics.requests_per_sec m
  = float_quot (of_int (Z.of_nat (length rs))) overall_latency /\
  BenchmarkMetrics.overall_latency m = overall_latency /\
  BenchmarkMetrics.gpu_counts m = gpu_counts /\
  np_mean (map RequestFuncOutput.request_latency rs)
  = Ok (BenchmarkMetrics.average_request_latency m) /\
  np_std (map RequestFuncOutput.request_latency rs)
  = Ok (BenchmarkMetrics.std_request_latency m) /\
  np_percentile (map RequestFuncOutput.request_latency rs) 90
  = Ok (BenchmarkMetrics.average_p90 m) /\
  np_max (map RequestFuncOutput.request_latency rs)
  = Ok (BenchmarkMetrics.max_latency m) /\
  np_percentile (map RequestFuncOutput.request_latency rs) 99
  = Ok (BenchmarkMetrics.p99_latency m) /\
  np_mean (map RequestFuncOutput.ttft rs) = Ok (BenchmarkMetrics.average_ttft m) /\
  BenchmarkMetrics.num_finished_requests m
  = Z.of_nat
      (length
         (List.filter
            (fun r => RequestFuncOutput.success r
                      && float_le (RequestFuncOutput.global_time r) time_limit)
            rs)).
Proof.
  unfold BenchmarkMetrics.gen_benchmark_metrics. intros Hrun.
  pose proof (update_all_result rs) as Hres.
  destruct (BenchmarkMetrics.update_all tokenizer rs)
    as [rs' [[]|e]] eqn:Hupd; [|discriminate].
  simpl in Hres.
  destruct (forallb _ rs) eqn:Hall; [|discriminate].
  apply forallb_nonzero in Hall.
  apply update_all_ok in Hupd. subst rs'. cbn [bind] in Hrun.
  rewrite total_tokens_updated in Hrun. cbn [bind] in Hrun.
  assert (map RequestFuncOutput.request_latency (map updated rs)
          = map RequestFuncOutput.request_latency rs) as Hlat.
  { rewrite map_map. apply map_ext. intros r.
    apply update_metrics_request_latency. }
  assert (map RequestFuncOutput.ttft (map updated rs)
          = map RequestFuncOutput.ttft rs) as Httft.
  { rewrite map_map. apply map_ext. intros r.
    pose proof (update_metrics_keeps tokenizer r) as (_ & _ & _ & Ht & _).
    exact Ht. }
  rewrite Hlat, Httft in Hrun.
  destruct (float_is_zero overall_latency) eqn:Hover.
  { rewrite truediv_zero in Hrun by exact Hover. discriminate. }
  rewrite !(truediv_nonzero _ _ Hover) in Hrun. cbn [bind] in Hrun.
  repeat match type of Hrun with
         | bind _ _ = Ok _ =>
             apply bind_ok_inv in Hrun; destruct Hrun as (? & ? & Hrun)
         end.
  injection Hrun as <-. cbn.
  rewrite py_sum_bool_count, count_updated, length_map.
  repeat split; assumption || reflexivity.
Qed.

End AggregationProperties.

Section AggregationTheorems.
Context `{Numpy}.
Variable tokenizer : string -> list Z.

(** X4: the aggregation returns exactly when the collection is not empty,
    no record has a zero [request_latency] and [overall_latency] is not
    zero. *)
Theorem gen_benchmark_metrics_returns_iff
    (rs : list RequestFuncOutput.t) (overall_latency time_limit : pyfloat)
    (gpu_counts : gmap Z Z) :
  is_ok (BenchmarkMetrics.gen_benchmark_metrics tokenizer rs overall_latency
           time_limit gpu_counts) = true
  <->
  rs <> [] /\
  Forall (fun r => float_is_zero (RequestFuncOutput.request_latency r) = false) rs /\
  float_is_zero overall_latency = false.
Proof.
  split.
  - intros Hok. destruct (is_ok_inv _ Hok) as [m Hm].
    destruct (gen_benchmark_metrics_inv tokenizer _ _ _ _ _ Hm)
      as (Hlat & Hover & _).
    split; [|split; assumption].
    intros ->. rewrite gen_benchmark_metrics_empty in Hok. discriminate.
  - intros (Hne & Hlat & Hover).
    destruct (gen_benchmark_metrics_returns tokenizer rs overall_latency
                time_limit gpu_counts Hne Hlat Hover) as (m & _ & -> & _).
    reflexivity.
Qed.

(** X5: when a record has a zero [request_latency], or [overall_latency]
    is zero, the aggregation raises [ZeroDivisionError]. *)
Theorem gen_benchmark_metrics_zero_latency
    (rs : list RequestFuncOutput.t) (overall_latency time_limit : pyfloat)
    (gpu_counts : gmap Z Z) :
  Exists (fun r => float_is_zero (RequestFuncOutput.request_latency r) = true) rs
  \/ float_is_zero overall_latency = true ->
  BenchmarkMetrics.gen_benchmark_metrics tokenizer rs overall_latency
    time_limit gpu_counts = Raise ZeroDivisionError.
Proof.
  intros Hzero. unfold BenchmarkMetrics.gen_benchmark_metrics.
  pose proof (update_all_result tokenizer rs) as Hres.
  destruct (forallb _ rs) eqn:Hall.
  - apply forallb_nonzero in Hall.
    destruct Hzero as [Hex|Hover].
    { apply List.Exists_exists in Hex as (r & Hin & Hr).
      rewrite List.Forall_forall in Hall. rewrite (Hall r Hin) in Hr.
      discriminate. }
    rewrite (update_all_total tokenizer rs Hall). cbn [bind].
    rewrite total_tokens_updated. cbn [bind].
    rewrite (truediv_zero _ _ Hover). reflexivity.
  - destruct (BenchmarkMetrics.update_all tokenizer rs) as [rs' o].
    simpl in Hres. subst o. reflexivity.
Qed.

(** X6: the latency statistics of a returned [BenchmarkMetrics] are taken
    over the [request_latency] of every record given, failed ones
    included, and [average_ttft] over every [ttft]. *)
Theorem gen_benchmark_metrics_latency_statistics
    (rs : list RequestFuncOutput.t) (overall_latency time_limit : pyfloat)
    (gpu_counts : gmap Z Z) (m : BenchmarkMetrics.t) :
  BenchmarkMetrics.gen_benchmark_metrics tokenizer rs overall_latency
    time_limit gpu_counts = Ok m ->
  np_mean (map RequestFuncOutput.request_latency rs)
  = Ok (BenchmarkMetrics.average_request_latency m) /\
  np_std (map RequestFuncOutput.request_latency rs)
  = Ok (BenchmarkMetrics.std_request_latency m) /\
  np_percentile (map RequestFuncOutput.request_latency rs) 90
  = Ok (BenchmarkMetrics.average_p90 m) /\
  np_max (map RequestFuncOutput.request_latency rs)
  = Ok (BenchmarkMetrics.max_latency m) /\
  np_percentile (map RequestFuncOutput.request_latency rs) 99
  = Ok (BenchmarkMetrics.p99_latency m) /\
  np_mean (map RequestFuncOutput.ttft rs) = Ok (BenchmarkMetrics.average_ttft m).
Proof.
  intros Hrun.
  destruct (gen_benchmark_metrics_inv tokenizer _ _ _ _ _ Hrun)
    as (_ & _ & _ & _ & _ & _ & _ & _ & _ & H1 & H2 & H3 & H4 & H5 & H6 & _).
  repeat split; assumption.
Qed.

(** X7: a returned [BenchmarkMetrics] carries the records given, each one
    updated, in the order given; [ttfts] has one entry for each record,
    [tpots] at most one; [overall_latency] and [gpu_counts] are the
    arguments. *)
Theorem gen_benchmark_metrics_results
    (rs : list RequestFuncOutput.t) (overall_latency time_limit : pyfloat)
    (gpu_counts : gmap Z Z) (m : BenchmarkMetrics.t) :
  BenchmarkMetrics.gen_benchmark_metrics tokenizer rs overall_latency
    time_limit gpu_counts = Ok m ->
  BenchmarkMetrics.all_results m
  = map (fun r => (RequestFuncOutput.update_metrics tokenizer r).1) rs /\
  BenchmarkMetrics.ttfts m = map RequestFuncOutput.ttft rs /\
  (length (BenchmarkMetrics.tpots m) <= length rs)%nat /\
  BenchmarkMetrics.overall_latency m = overall_latency /\
  BenchmarkMetrics.gpu_counts m = gpu_counts.
Proof.
  intros Hrun.
  destruct (gen_benchmark_metrics_inv tokenizer _ _ _ _ _ Hrun)
    as (_ & _ & Hall & Httfts & Htpots & _ & _ & Hol & Hgc & _).
  repeat split; try assumption.
  rewrite Htpots. etransitivity; [apply omap_length_le|].
  rewrite length_map. lia.
Qed.

(** X8: of a returned [BenchmarkMetrics], [throughput_tok_sec] is the sum
    over all records of [prompt_len] plus the resolved [output_len],
    divided by [overall_latency], and [requests_per_sec] is the number of
    records divided by [overall_latency]. *)
Theorem gen_benchmark_metrics_throughput
    (rs : list RequestFuncOutput.t) (overall_latency time_limit : pyfloat)
    (gpu_counts : gmap Z Z) (m : BenchmarkMetrics.t) :
  BenchmarkMetrics.gen_benchmark_metrics tokenizer rs overall_latency
    time_limit gpu_counts = Ok m ->
  truediv
    (of_int (py_sum (map (fun r => RequestFuncOutput.prompt_len r
                            + RequestFuncOutput.resolved_output_len tokenizer r)
                         rs)))
    overall_latency = Ok (BenchmarkMetrics.throughput_tok_sec m) /\
  truediv (of_int (Z.of_nat (length rs))) overall_latency
  = Ok (BenchmarkMetrics.requests_per_sec m).
Proof.
  intros Hrun.
  destruct (gen_benchmark_metrics_inv tokenizer _ _ _ _ _ Hrun)
    as (_ & Hover & _ & _ & _ & Hthr & Hrps & _).
  rewrite !(truediv_nonzero _ _ Hover), Hthr, Hrps. split; reflexivity.
Qed.

(** X9: [num_finished_requests] lies between 0 and the number of records
    with [success] set, which is at most the number of records. *)
Theorem gen_benchmark_metrics_num_finished_bounds
    (rs : list RequestFuncOutput.t) (overall_latency time_limit : pyfloat)
    (gpu_counts : gmap Z Z) (m : BenchmarkMetrics.t) :
  BenchmarkMetrics.gen_benchmark_metrics tokenizer rs overall_latency
    time_limit gpu_counts = Ok m ->
  0 <= BenchmarkMetrics.num_finished_requests m
  <= Z.of_nat (length (List.filter RequestFuncOutput.success rs)) /\
  (length (List.filter RequestFuncOutput.success rs) <= length rs)%nat.
Proof.
  intros Hrun.
  destruct (gen_benchmark_metrics_inv tokenizer _ _ _ _ _ Hrun)
    as (_ & _ & _ & _ & _ & _ & _ & _ & _ & _ & _ & _ & _ & _ & _ & ->).
  split; [|apply List.filter_length_le].
  split; [lia|]. apply Nat2Z.inj_le, filter_length_mono.
  intros r Hr. apply andb_true_iff in Hr as [Hs _]. exact Hs.
Qed.

(** X10: a later time limit never counts fewer finished requests. *)
Theorem gen_benchmark_metrics_num_finished_monotone
    (rs : list RequestFuncOutput.t) (overall_latency limit limit' : pyfloat)
    (gpu_counts : gmap Z Z) (m m' : BenchmarkMetrics.t) :
  float_le limit limit' = true ->
  BenchmarkMetrics.gen_benchmark_metrics tokenizer rs overall_latency
    limit gpu_counts = Ok m ->
  BenchmarkMetrics.gen_benchmark_metrics tokenizer rs overall_latency
    limit' gpu_counts = Ok m' ->
  BenchmarkMetrics.num_finished_requests m
  <= BenchmarkMetrics.num_finished_requests m'.
Proof.
  intros Hle Hrun Hrun'.
  destruct (gen_benchmark_metrics_inv tokenizer _ _ _ _ _ Hrun)
    as (_ & _ & _ & _ & _ & _ & _ & _ & _ & _ & _ & _ & _ & _ & _ & ->).
  destruct (gen_benchmark_metrics_inv tokenizer _ _ _ _ _ Hrun')
    as (_ & _ & _ & _ & _ & _ & _ & _ & _ & _ & _ & _ & _ & _ & _ & ->).
  apply Nat2Z.inj_le, filter_length_mono. intros r Hr.
  apply andb_true_iff in Hr as [Hs Ht]. rewrite Hs. simpl.
  exact (float_le_trans _ _ _ Ht Hle).
Qed.

End AggregationTheorems.

Lemma gen_benchmark_metrics_zero_latency_witness :
  @BenchmarkMetrics.gen_benchmark_metrics numpy_model char_tokenizer
    [finished_record "abc" 2 (1 # 2) 3; failed_record] (Real 10) (of_int 100) ∅
  = Raise ZeroDivisionError.
Proof.
  apply (@gen_benchmark_metrics_zero_latency numpy_model char_tokenizer
           [finished_record "abc" 2 (1 # 2) 3; failed_record]
           (Real 10) (of_int 100) ∅).
  left. apply Exists_cons_tl, Exists_cons_hd. reflexivity.
Defined.

Lemma gen_benchmark_metrics_latency_statistics_witness :
  exists m : BenchmarkMetrics.t,
    @BenchmarkMetrics.gen_benchmark_metrics numpy_model char_tokenizer
      sample_records (Real 10) (of_int 100) ∅ = Ok m /\
    @np_mean numpy_model (map RequestFuncOutput.request_latency sample_records)
    = Ok (BenchmarkMetrics.average_request_latency m) /\
    @np_max numpy_model (map RequestFuncOutput.request_latency sample_records)
    = Ok (BenchmarkMetrics.max_latency m).
Proof.
  eexists. split; [vm_compute; reflexivity|].
  pose proof (@gen_benchmark_metrics_latency_statistics numpy_model
                char_tokenizer sample_records (Real 10) (of_int 100) ∅ _
                ltac:(vm_compute; reflexivity))
    as (Hmean & _ & _ & Hmax & _).
  split; [exact Hmean | exact Hmax].
Defined.

Lemma gen_benchmark_metrics_results_witness :
  exists m : BenchmarkMetrics.t,
    @BenchmarkMetrics.gen_benchmark_metrics numpy_model char_tokenizer
      sample_records (Real 10) (of_int 100) ∅ = Ok m /\
    BenchmarkMetrics.ttfts m = [Real (1 # 2); Real 1; of_int 0] /\
    (length (BenchmarkMetrics.tpots m) <= 3)%nat.
Proof.
  eexists. split; [vm_compute; reflexivity|].
  pose proof (@gen_benchmark_metrics_results numpy_model
                char_tokenizer sample_records (Real 10) (of_int 100) ∅ _
                ltac:(vm_compute; reflexivity))
    as (_ & Httfts & Htpots & _).
  split; [exact Httfts | exact Htpots].
Defined.

Lemma gen_benchmark_metrics_throughput_witness :
  exists m : BenchmarkMetrics.t,
    @BenchmarkMetrics.gen_benchmark_metrics numpy_model char_tokenizer
      sample_records (Real 10) (of_int 100) ∅ = Ok m /\
    truediv (of_int (Z.of_nat (length sample_records))) (Real 10)
    = Ok (BenchmarkMetrics.requests_per_sec m).
Proof.
  eexists. split; [vm_compute; reflexivity|].
  apply (@gen_benchmark_metrics_throughput numpy_model
           char_tokenizer sample_records (Real 10) (of_int 100) ∅ _
           ltac:(vm_compute; reflexivity)).
Defined.

Lemma gen_benchmark_metrics_num_finished_bounds_witness :
  exists m : BenchmarkMetrics.t,
    @BenchmarkMetrics.gen_benchmark_metrics numpy_model char_tokenizer
      sample_records (Real 10) (of_int 100) ∅ = Ok m /\
    0 <= BenchmarkMetrics.num_finished_requests m
    <= Z.of_nat (length (List.filter RequestFuncOutput.success sample_records)).
Proof.
  eexists. split; [vm_compute; reflexivity|].
  apply (@gen_benchmark_metrics_num_finished_bounds numpy_model
           char_tokenizer sample_records (Real 10) (of_int 100) ∅ _
           ltac:(vm_compute; reflexivity)).
Defined.

Lemma gen_benchmark_metrics_num_finished_monotone_witness :
  exists m m' : BenchmarkMetrics.t,
    @BenchmarkMetrics.gen_benchmark_metrics numpy_model char_tokenizer
      sample_records (Real 10) (of_int 100) ∅ = Ok m /\
    @BenchmarkMetrics.gen_benchmark_metrics numpy_model char_tokenizer
      sample_records (Real 10) (of_int 200) ∅ = Ok m' /\
    BenchmarkMetrics.num_finished_requests m
    <= BenchmarkMetrics.num_finished_requests m'.
Proof.
  eexists _, _. split; [vm_compute; reflexivity|].
  split; [vm_compute; reflexivity|].
  apply (@gen_benchmark_metrics_num_finished_monotone numpy_model
           char_tokenizer sample_records (Real 10) (of_int 100) (of_int 200) ∅
           _ _ eq_refl ltac:(vm_compute; reflexivity)
           ltac:(vm_compute; reflexivity)).
Defined.

(** ** [multi_exp_utils] and the load generator *)

(** X11: with fewer than two requests [calc_send_out_times] draws no
    interval and never looks at the rate: the result is [[0, 0]] for every
    rate, zero, negative or NaN included. *)
Theorem calc_send_out_times_few_requests `{NumpyRandom} {Req : Type}
    (requests : list Req) (request_rate exp_time : pyfloat) :
  (length requests <= 1)%nat ->
  calc_send_out_times requests request_rate exp_time
  = Ok [of_int 0; of_int 0].
Proof.
  intros Hlen. destruct requests as [|r [|r' rest]]; [reflexivity..|].
  simpl in Hlen. lia.
Qed.

Lemma calc_send_out_times_few_requests_witness :
  @calc_send_out_times random_model nat [7%nat] NaN PInf
  = Ok [of_int 0; of_int 0].
Proof.
  apply (@calc_send_out_times_few_requests random_model nat [7%nat] NaN PInf).
  simpl. lia.
Defined.

(** X12: with two requests or more, a rate of zero makes
    [calc_send_out_times] raise [ZeroDivisionError]. *)
Theorem calc_send_out_times_zero_rate_raises `{NumpyRandom} {Req : Type}
    (requests : list Req) (exp_time : pyfloat) :
  (2 <= length requests)%nat ->
  calc_send_out_times requests (of_int 0) exp_time = Raise ZeroDivisionError.
Proof.
  intros Hlen. destruct requests as [|r [|r' rest]]; simpl in Hlen; try lia.
  reflexivity.
Qed.

Lemma calc_send_out_times_zero_rate_raises_witness :
  @calc_send_out_times random_model nat [1; 2; 3]%nat (of_int 0) PInf
  = Raise ZeroDivisionError.
Proof.
  apply (@calc_send_out_times_zero_rate_raises random_model nat
           [1; 2; 3]%nat PInf).
  simpl. lia.
Defined.

(** X13: [scale_to_gpu] keeps the length of the workload, scaling twice is
    scaling by the product, and scaling by one changes nothing. *)
Theorem scale_to_gpu_compose (workload : list Z) (a b : Z) :
  length (scale_to_gpu workload a) = length workload /\
  scale_to_gpu (scale_to_gpu workload a) b = scale_to_gpu workload (a * b) /\
  scale_to_gpu workload 1 = workload.
Proof.
  unfold scale_to_gpu. split; [apply length_map|]. split.
  - rewrite map_map. apply map_ext. intros w. lia.
  - rewrite <- (map_id workload) at 2. apply map_ext. intros w. lia.
Qed.

(** X14: the function built by [pipeline_parallelism] passes on the
    exception of [forward_equation]; when [forward_equation] returns, it
    raises [ZeroDivisionError] for [pp = 0] and returns the quotient
    otherwise.  Building it never raises. *)
Theorem pipeline_parallelism_call {Args : Type} (pp : Z)
    (forward_equation : Args -> result pyfloat) (args : Args) :
  pipeline_parallelism pp forward_equation args =
  match forward_equation args with
  | Raise e => Raise e
  | Ok t => if pp =? 0 then Raise ZeroDivisionError
            else Ok (float_quot t (of_int pp))
  end.
Proof.
  unfold pipeline_parallelism. destruct (forward_equation args) as [t|e];
    [|reflexivity].
  cbn [bind]. unfold truediv. rewrite float_is_zero_of_int. reflexivity.
Qed.

Section GeneratorProperties.
Context `{Collaborators} `{NumpyRandom} {Req : Type}.

Lemma get_request_paced (requests : list Req) (request_rate : pyfloat) (k : nat) :
  float_is_inf request_rate = false ->
  (ModelDetails.get_request requests request_rate k).2 = Ok tt ->
  exists intervals : list pyfloat,
    length intervals = length requests /\
    (ModelDetails.get_request requests request_rate k).1
    = paced requests intervals.
Proof.
  intros Hfinite. revert k.
  induction requests as [|r rest IH]; intros k Hok.
  - exists []. split; reflexivity.
  - simpl in *. rewrite Hfinite in *.
    destruct (bind _ _) as [d|e]; [|discriminate].
    specialize (IH (S k)).
    destruct (ModelDetails.get_request rest request_rate (S k)) as [events o].
    simpl in *. destruct (IH Hok) as (intervals & Hlen & ->).
    exists (d :: intervals). split; [simpl; lia | reflexivity].
Qed.

(** X15: at a finite rate, a run of the generator that reaches the
    [gather] has created one task for each request and slept once after
    each of them, the last one included. *)
Theorem async_generate_batch_paced (self : ModelDetails.t)
    (requests : list Req) (request_rate now now' : pyfloat) :
  float_is_inf request_rate = false ->
  (ModelDetails.async_generate_batch_request_per_sec self requests
     request_rate now now').2 = Ok tt ->
  exists intervals : list pyfloat,
    length intervals = length requests /\
    (ModelDetails.async_generate_batch_request_per_sec self requests
       request_rate now now').1.2
    = paced requests intervals.
Proof.
  unfold ModelDetails.async_generate_batch_request_per_sec.
  intros Hfinite Hok.
  pose proof (get_request_paced requests request_rate 0 Hfinite) as Hpaced.
  destruct (ModelDetails.get_request requests request_rate 0) as [events o].
  simpl in *. exact (Hpaced Hok).
Qed.

(** At a rate of zero the generator creates the task of the first
    request and then raises [ZeroDivisionError]; no other task is
    created. *)
Theorem async_generate_batch_zero_rate (self : ModelDetails.t)
    (r : Req) (rest : list Req) (now now' : pyfloat) :
  let run :=
    ModelDetails.async_generate_batch_request_per_sec self (r :: rest)
      (of_int 0) now now' in
  run.1.2 = [CreateTask r] /\ run.2 = Raise ZeroDivisionError.
Proof. split; reflexivity. Qed.

End GeneratorProperties.

Lemma async_generate_batch_paced_witness :
  exists intervals : list pyfloat,
    length intervals = length [10; 20]%nat /\
    (@ModelDetails.async_generate_batch_request_per_sec sample_collaborators
       random_model nat
       (two_runtimes "http://10.0.0.1:30000" "http://10.0.0.2:30000")
       [10; 20]%nat (Real 2) (Real 5) (Real 5)).1.2
    = paced [10; 20]%nat intervals.
Proof.
  apply (@async_generate_batch_paced sample_collaborators random_model nat
           (two_runtimes "http://10.0.0.1:30000" "http://10.0.0.2:30000")
           [10; 20]%nat (Real 2) (Real 5) (Real 5)); reflexivity.
Defined.

(** ** The manager *)

Lemma list_getitem_elem_of {A : Type} (xs : list A) (i : Z) (x : A) :
  list_getitem xs i = Ok x -> x ∈ xs.
Proof.
  unfold list_getitem. destruct (_ && _); [|discriminate].
  destruct (xs !! _) as [y|] eqn:Hy; [|discriminate].
  intros [= <-]. exact (list_elem_of_lookup_2 _ _ _ Hy).
Qed.

(** [xs[i]] is defined exactly for [-len(xs) <= i < len(xs)]. *)
Lemma list_getitem_bounds {A : Type} (xs : list A) (i : Z) :
  list_getitem xs i =
  if (- Z.of_nat (length xs) <=? i) && (i <? Z.of_nat (length xs))
  then match xs !! Z.to_nat (if i <? 0 then i + Z.of_nat (length xs) else i) with
       | Some x => Ok x
       | None => Raise IndexError
       end
  else Raise IndexError.
Proof.
  unfold list_getitem.
  destruct (Z.ltb_spec i 0), (Z.leb_spec (- Z.of_nat (length xs)) i),
    (Z.ltb_spec i (Z.of_nat (length xs))); simpl;
    repeat match goal with
           | |- context [?a <=? ?b] => destruct (Z.leb_spec a b); try lia
           | |- context [?a <? ?b] => destruct (Z.ltb_spec a b); try lia
           end; simpl; reflexivity.
Qed.

Section SelectionProperties.
Context `{Collaborators}.

(** X17: a runtime returned by [select_runtime_with_identifiers] is one of
    the runtimes of the manager. *)
Theorem select_runtime_with_identifiers_member (self : ModelDetails.t)
    (k : nat) (text : string) (sampling_params : gmap string pyval)
    (input_ids : option (list Z)) (runtime : EndpointRuntimeInterface) :
  (ModelDetails.select_runtime_with_identifiers self k text sampling_params
     input_ids).2 = Ok runtime ->
  runtime ∈ ModelDetails.runtimes self.
Proof.
  unfold ModelDetails.select_runtime_with_identifiers, dict_pop.
  destruct (select_runtime _ _ _ _ _) as [router' [i|e]]; cbn [snd bind];
    [|discriminate].
  apply list_getitem_elem_of.
Qed.

(** X18: when the router answers with an index outside
    [-len(runtimes), len(runtimes)), the selection raises [IndexError];
    an index from [-len(runtimes)] up to [-1] counts from the end and
    does not raise. *)
Theorem select_runtime_with_identifiers_index (self : ModelDetails.t)
    (k : nat) (text : string) (sampling_params : gmap string pyval)
    (input_ids : option (list Z)) (i : Z) :
  (forall (experiment_id request_id : pyval),
      (select_runtime (ModelDetails.request_router self) text experiment_id
                      request_id input_ids).2 = Ok i) ->
  is_ok (ModelDetails.select_runtime_with_identifiers self k text
           sampling_params input_ids).2
  = (- Z.of_nat (length (ModelDetails.runtimes self)) <=? i)
    && (i <? Z.of_nat (length (ModelDetails.runtimes self))) /\
  (is_ok (ModelDetails.select_runtime_with_identifiers self k text
            sampling_params input_ids).2 = false ->
   (ModelDetails.select_runtime_with_identifiers self k text
      sampling_params input_ids).2 = Raise IndexError).
Proof.
  intros Hrouter.
  unfold ModelDetails.select_runtime_with_identifiers, dict_pop.
  specialize (Hrouter
    (default (VStr (uuid4_hex k)) (sampling_params !! "experiment_id"))
    (default (VStr (uuid4_hex (S k)))
             (delete "experiment_id" sampling_params !! "request_id"))).
  destruct (select_runtime _ _ _ _ _) as [router' o]. simpl in Hrouter.
  subst o. cbn [snd bind]. rewrite list_getitem_bounds.
  destruct (_ && _) eqn:Hin; [|split; reflexivity].
  apply andb_true_iff in Hin as [Hlo Hhi].
  apply Z.leb_le in Hlo. apply Z.ltb_lt in Hhi.
  destruct (ModelDetails.runtimes self !! _) as [x|] eqn:Hx.
  - split; [reflexivity | discriminate].
  - apply lookup_ge_None in Hx. destruct (Z.ltb_spec i 0); lia.
Qed.

End SelectionProperties.

Lemma select_runtime_with_identifiers_member_witness :
  runtime_at "http://10.0.0.1:30000"
  ∈ ModelDetails.runtimes
      (two_runtimes "http://10.0.0.1:30000" "http://10.0.0.2:30000").
Proof.
  apply (@select_runtime_with_identifiers_member sample_collaborators
           (two_runtimes "http://10.0.0.1:30000" "http://10.0.0.2:30000")
           0 "hello" ∅ None (runtime_at "http://10.0.0.1:30000")).
  vm_compute. reflexivity.
Defined.

Lemma select_runtime_with_identifiers_index_witness :
  is_ok (ModelDetails.select_runtime_with_identifiers
           (ModelDetails.mk sample_collaborators "model" []
              [runtime_at "http://10.0.0.1:30000";
               runtime_at "http://10.0.0.2:30000"]
              (2%nat, 3%nat) [] None [] None)
           0 "hello" ∅ None).2
  = (- 2 <=? 2) && (2 <? 2).
Proof.
  apply (@select_runtime_with_identifiers_index sample_collaborators
           (ModelDetails.mk sample_collaborators "model" []
              [runtime_at "http://10.0.0.1:30000";
               runtime_at "http://10.0.0.2:30000"]
              (2%nat, 3%nat) [] None [] None)
           0 "hello" ∅ None 2).
  intros experiment_id request_id. reflexivity.
Defined.

Section ProvisioningProperties.
Context `{Collaborators}.

Lemma load_runtimes_unfold (self : ModelDetails.t) (model_path : string)
    (configs : list GPUConfig) (kwargs : gmap string pyval) :
  ModelDetails.runtimes self
    `prefix_of`
    ModelDetails.runtimes
      (ModelDetails.load_runtimes self model_path configs kwargs).1 /\
  match mapM (ModelDetails.load_runtime model_path kwargs) configs with
  | Ok loaded =>
      ModelDetails.load_runtimes self model_path configs kwargs
      = (ModelDetails.set_runtimes (ModelDetails.runtimes self ++ loaded) self,
         Ok tt)
  | Raise e =>
      (ModelDetails.load_runtimes self model_path configs kwargs).2 = Raise e
  end.
Proof.
  revert self. induction configs as [|config rest IH]; intros self.
  - simpl. split; [reflexivity|]. rewrite app_nil_r.
    destruct self. reflexivity.
  - cbn [ModelDetails.load_runtimes mapM bind].
    destruct (ModelDetails.load_runtime model_path kwargs config) as [rt|e];
      [|split; reflexivity].
    destruct (IH (ModelDetails.set_runtimes
                    (ModelDetails.runtimes self ++ [rt]) self)) as [Hp Hrun].
    split.
    + etransitivity; [|exact Hp]. simpl. apply prefix_app_r. reflexivity.
    + destruct (mapM _ rest) as [loaded|e]; cbn [bind].
      * rewrite Hrun. simpl. rewrite <- app_assoc. reflexivity.
      * exact Hrun.
Qed.

(** X19: [load_runtimes] appends to the runtime list and removes nothing.
    When no constructor raises, the runtimes appended are those of the
    slots, one for each slot, in the order of the slots; otherwise the
    first exception of a constructor is the exception of
    [load_runtimes]. *)
Theorem load_runtimes_appends (self : ModelDetails.t) (model_path : string)
    (configs : list GPUConfig) (kwargs : gmap string pyval) :
  ModelDetails.runtimes self
    `prefix_of`
    ModelDetails.runtimes
      (ModelDetails.load_runtimes self model_path configs kwargs).1 /\
  match mapM (ModelDetails.load_runtime model_path kwargs) configs with
  | Ok loaded =>
      length loaded = length configs /\
      ModelDetails.load_runtimes self model_path configs kwargs
      = (ModelDetails.set_runtimes (ModelDetails.runtimes self ++ loaded) self,
         Ok tt)
  | Raise e =>
      (ModelDetails.load_runtimes self model_path configs kwargs).2 = Raise e
  end.
Proof.
  destruct (load_runtimes_unfold self model_path configs kwargs) as [Hp Hrun].
  split; [exact Hp|].
  destruct (mapM _ configs) as [loaded|e] eqn:Hload; [|exact Hrun].
  split; [|exact Hrun]. clear Hrun Hp.
  revert loaded Hload. induction configs as [|c rest IH]; intros loaded Hload.
  - injection Hload as <-. reflexivity.
  - cbn [mapM] in Hload.
    apply bind_ok_inv in Hload as (rt & _ & Hload).
    apply bind_ok_inv in Hload as (rts & Hrest & Hload).
    injection Hload as <-. simpl. f_equal. apply IH, Hrest.
Qed.

Lemma load_runtime_class (model_path : string) (kwargs : gmap string pyval)
    (config : GPUConfig) (runtime : EndpointRuntimeInterface) :
  ModelDetails.load_runtime model_path kwargs config = Ok runtime ->
  class_of runtime
  = if use_ssh config then SSHRuntime else ExtendedSGLangRuntime.
Proof.
  unfold ModelDetails.load_runtime. destruct (use_ssh config).
  - apply SSHRuntime_new_class.
  - destruct (url_truthy _).
    + rewrite URLRuntime_new_raises. discriminate.
    + unfold ExtendedSGLangRuntime_new.
      destruct (keywords_clash _ _); [discriminate|].
      destruct (SGLangServer_init _ _ _ _) as [[[rid u] g]|e]; [|discriminate].
      simpl. intros [= <-]. reflexivity.
Qed.

(** X20: [load_runtimes] never adds a [URLRuntime]: a manager without one
    has none afterwards, whatever the slots are and however the call
    ends. *)
Theorem load_runtimes_no_url_runtime (self : ModelDetails.t)
    (model_path : string) (configs : list GPUConfig)
    (kwargs : gmap string pyval) :
  Forall (fun r => class_of r <> URLRuntime) (ModelDetails.runtimes self) ->
  Forall (fun r => class_of r <> URLRuntime)
         (ModelDetails.runtimes
            (ModelDetails.load_runtimes self model_path configs kwargs).1).
Proof.
  revert self. induction configs as [|config rest IH]; intros self Hself.
  - exact Hself.
  - cbn [ModelDetails.load_runtimes].
    destruct (ModelDetails.load_runtime model_path kwargs config) as [rt|e]
      eqn:Hload; [|exact Hself].
    apply IH. simpl. apply Forall_app. split; [exact Hself|].
    constructor; [|constructor].
    rewrite (load_runtime_class _ _ _ _ Hload).
    destruct (use_ssh config); discriminate.
Qed.

(** X21: a slot with a url and without [use_ssh] makes provisioning raise
    [TypeError]: the slots before it are loaded, none after it. *)
Theorem load_runtimes_url_slot (self : ModelDetails.t) (model_path : string)
    (before after : list GPUConfig) (config : GPUConfig)
    (kwargs : gmap string pyval) (loaded : list EndpointRuntimeInterface) :
  mapM (ModelDetails.load_runtime model_path kwargs) before = Ok loaded ->
  use_ssh config = false ->
  url_truthy (gpu_url config) = true ->
  ModelDetails.load_runtimes self model_path (before ++ config :: after) kwargs
  = (ModelDetails.set_runtimes (ModelDetails.runtimes self ++ loaded) self,
     Raise TypeError).
Proof.
  intros Hbefore Hssh Hurl. revert self loaded Hbefore.
  induction before as [|c rest IH]; intros self loaded Hbefore.
  - injection Hbefore as <-. cbn [app ModelDetails.load_runtimes].
    rewrite (load_runtime_url_raises _ _ _ Hssh Hurl), app_nil_r.
    destruct self. reflexivity.
  - cbn [mapM] in Hbefore.
    apply bind_ok_inv in Hbefore as (rt & Hrt & Hbefore).
    apply bind_ok_inv in Hbefore as (rts & Hrest & Hbefore).
    injection Hbefore as <-.
    cbn [app ModelDetails.load_runtimes]. rewrite Hrt.
    rewrite (IH _ _ Hrest). simpl. rewrite <- app_assoc. reflexivity.
Qed.

(** X22: a keyword argument named [context_length] or [cuda_devices]
    handed to [load_runtimes] clashes with the one every constructor call
    passes explicitly: each slot raises [TypeError]. *)
Theorem load_runtime_keyword_clash (model_path : string)
    (kwargs : gmap string pyval) (config : GPUConfig) :
  is_not_None (kwargs !! "context_length") = true
  \/ is_not_None (kwargs !! "cuda_devices") = true ->
  ModelDetails.load_runtime model_path kwargs config = Raise TypeError.
Proof.
  intros Hclash. unfold ModelDetails.load_runtime.
  destruct (use_ssh config); [|destruct (url_truthy _)].
  - unfold SSHRuntime_new.
    assert (keywords_clash
              ["model_path"; "ssh_config"; "gpu"; "cuda_devices"; "context_length"]
              kwargs = true) as ->; [|reflexivity].
    unfold keywords_clash. apply existsb_exists.
    destruct Hclash as [Hc|Hc]; eexists; (split; [|exact Hc]); simpl; tauto.
  - apply URLRuntime_new_raises.
  - unfold ExtendedSGLangRuntime_new.
    assert (keywords_clash
              ["model_path"; "cuda_devices"; "gpu"; "context_length"]
              kwargs = true) as ->; [|reflexivity].
    unfold keywords_clash. apply existsb_exists.
    destruct Hclash as [Hc|Hc]; eexists; (split; [|exact Hc]); simpl; tauto.
Qed.

(** X23: [clear_kv_cache] calls the flush addresses in the order of the
    runtimes and skips none: the calls made are a prefix of the flush
    addresses, and all of them when it returns. *)
Theorem clear_kv_cache_in_order (self : ModelDetails.t) :
  (ModelDetails.clear_kv_cache self).1
    `prefix_of` map flush_cache_url (ModelDetails.runtimes self) /\
  match (ModelDetails.clear_kv_cache self).2 with
  | Ok _ => (ModelDetails.clear_kv_cache self).1
            = map flush_cache_url (ModelDetails.runtimes self)
  | Raise _ => True
  end.
Proof.
  unfold ModelDetails.clear_kv_cache.
  induction (ModelDetails.runtimes self) as [|r rest IH]; simpl.
  - split; reflexivity.
  - destruct (requests_get (flush_cache_url r)).
    + destruct (ModelDetails.flush_each rest) as [calls o].
      simpl in *. destruct IH as [Hp Hall].
      split; [apply prefix_cons, Hp|].
      destruct o; [f_equal; exact Hall | exact I].
    + simpl. split; [apply prefix_cons, prefix_nil | exact I].
Qed.

(** [generate_request] raises [TypeError] on every input, at its
    first statement: the call of [select_runtime_with_identifiers] lacks
    [input_ids].  Nothing is popped from the dict, the router is not
    asked, nothing is posted. *)
Theorem generate_request_raises
    (post : string -> string -> gmap string pyval -> result (gmap string pyval))
    (self : ModelDetails.t) (k : nat) (text : string)
    (sampling_params : gmap string pyval) (elapsed : pyfloat) :
  ModelDetails.generate_request post self k text sampling_params elapsed
  = (self, k, sampling_params, [], Raise TypeError).
Proof. reflexivity. Qed.

End ProvisioningProperties.

Lemma load_runtimes_no_url_runtime_witness :
  Forall (fun r => class_of r <> URLRuntime)
         (ModelDetails.runtimes
            (ModelDetails.load_runtimes
               (@ModelDetails.init sample_collaborators "model"
                  [ssh_and_url_config] (0%nat, 1%nat))
               "model" [ssh_and_url_config; GPUConfig_init 1 None false ∅] ∅).1).
Proof.
  apply (@load_runtimes_no_url_runtime sample_collaborators
           (@ModelDetails.init sample_collaborators "model"
              [ssh_and_url_config] (0%nat, 1%nat))
           "model" [ssh_and_url_config; GPUConfig_init 1 None false ∅] ∅).
  constructor.
Defined.

Lemma load_runtimes_url_slot_witness :
  (ModelDetails.load_runtimes
     (@ModelDetails.init sample_collaborators "model" [] (0%nat, 1%nat))
     "model"
     ([GPUConfig_init 0 None false ∅]
        ++ GPUConfig_init 1 (Some "http://10.0.0.5:30000") false ∅
        :: [GPUConfig_init 2 None false ∅]) ∅).2
  = Raise TypeError.
Proof.
  rewrite (@load_runtimes_url_slot sample_collaborators
             (@ModelDetails.init sample_collaborators "model" [] (0%nat, 1%nat))
             "model" [GPUConfig_init 0 None false ∅]
             [GPUConfig_init 2 None false ∅]
             (GPUConfig_init 1 (Some "http://10.0.0.5:30000") false ∅) ∅
             [{| class_of := ExtendedSGLangRuntime; runtime_id := "local";
                 url := "http://127.0.0.1:30000";
                 generate_url := "http://127.0.0.1:30000/generate";
                 gpu := VInt 0 |}]);
    reflexivity.
Defined.

Lemma load_runtime_keyword_clash_witness :
  ModelDetails.load_runtime (H := sample_collaborators) "model"
    {[ "context_length" := VInt 8192 ]} (GPUConfig_init 0 None false ∅)
  = Raise TypeError.
Proof.
  apply (@load_runtime_keyword_clash sample_collaborators "model"
           {[ "context_length" := VInt 8192 ]} (GPUConfig_init 0 None false ∅)).
  left. vm_compute. reflexivity.
Defined.

(** ** [async_send_request] *)

Section DispatchProperties.
Context `{Collaborators}.

(** What a selection leaves behind, component by component. *)
Lemma select_runtime_with_identifiers_parts (self : ModelDetails.t) (k : nat)
    (text : string) (sampling_params : gmap string pyval)
    (input_ids : option (list Z)) :
  let selection :=
    ModelDetails.select_runtime_with_identifiers self k text sampling_params
                                                 input_ids in
  ModelDetails.start_time selection.1.1.1.1 = ModelDetails.start_time self /\
  ModelDetails.request_sent_time selection.1.1.1.1
  = ModelDetails.request_sent_time self /\
  ModelDetails.runtimes selection.1.1.1.1 = ModelDetails.runtimes self /\
  selection.1.1.1.2 = S (S k) /\
  selection.1.1.2 = delete "request_id" (delete "experiment_id" sampling_params) /\
  selection.1.2
  = [Select text
       (default (VStr (uuid4_hex k)) (sampling_params !! "experiment_id"))
       (default (VStr (uuid4_hex (S k)))
                (delete "experiment_id" sampling_params !! "request_id"))
       input_ids].
Proof.
  unfold ModelDetails.select_runtime_with_identifiers, dict_pop.
  destruct (select_runtime _ _ _ _ _) as [router' runtime_id].
  repeat split; reflexivity.
Qed.

(** [async_send_request] in terms of its selection and its loop. *)
Lemma async_send_request_unfold (self : ModelDetails.t) (k : nat)
    (text : string) (sampling_params : gmap string pyval)
    (input_ids : option (list Z)) (sent_at : pyfloat)
    (attempts : list attempt) :
  let rid := uuid4_hex k in
  let selection :=
    ModelDetails.select_runtime_with_identifiers self (S k) text
      (<["request_id" := VStr rid]> sampling_params) input_ids in
  ModelDetails.async_send_request self k text sampling_params input_ids
    sent_at attempts =
  match selection.2, ModelDetails.start_time self with
  | Raise e, _ => (selection.1, Raised e)
  | Ok _, None => (selection.1, Raised TypeError)
  | Ok runtime, Some started =>
      let loop :=
        ModelDetails.send_loop (generate_url runtime) text selection.1.1.2 rid
                               attempts in
      (ModelDetails.set_request_sent_time
         (ModelDetails.request_sent_time self ++ [float_sub sent_at started])
         selection.1.1.1.1,
       selection.1.1.1.2, selection.1.1.2, selection.1.2 ++ loop.1,
       match loop.2 with
       | Returned (a, output) =>
           match ModelDetails.finish a output with
           | Ok output => Returned output
           | Raise e => Raised e
           end
       | Raised e => Raised e
       | Retrying => Retrying
       end)
  end.
Proof.
  intros rid selection.
  pose proof (select_runtime_with_identifiers_parts self (S k) text
                (<["request_id" := VStr rid]> sampling_params) input_ids)
    as (Hstart & Hsent & _).
  fold selection in Hstart, Hsent.
  unfold ModelDetails.async_send_request. fold rid. fold selection.
  destruct selection as [[[[self' k'] sp'] selected] [runtime|e]];
    cbn [fst snd] in *; [|reflexivity].
  rewrite Hstart, Hsent.
  destruct (ModelDetails.start_time self) as [started|]; [|reflexivity].
  destruct (ModelDetails.send_loop _ _ _ _ _) as [posts o]. reflexivity.
Qed.

Lemma send_loop_posts (generate_url text : string)
    (sampling_params : gmap string pyval) (rid : string)
    (attempts : list attempt) :
  Forall (fun e => e = Post generate_url text sampling_params rid)
         (ModelDetails.send_loop generate_url text sampling_params rid
                                 attempts).1.
Proof.
  induction attempts as [|a rest IH]; simpl; [constructor|].
  destruct (a_output a) as [output|e]; [|repeat constructor].
  destruct (is_not_None _); [|repeat constructor].
  destruct (ModelDetails.send_loop _ _ _ _ rest) as [events o].
  simpl in *. constructor; [reflexivity | exact IH].
Qed.

Lemma popped_after_insert (sampling_params : gmap string pyval) (v : pyval) :
  delete "request_id"
    (delete "experiment_id" (<["request_id" := v]> sampling_params))
  = delete "request_id" (delete "experiment_id" sampling_params).
Proof.
  apply map_eq. intros key.
  destruct (decide (key = "request_id")) as [->|Hreq].
  - rewrite !lookup_delete_eq. reflexivity.
  - rewrite !(lookup_delete_ne _ "request_id") by congruence.
    destruct (decide (key = "experiment_id")) as [->|Hexp].
    + rewrite !lookup_delete_eq. reflexivity.
    + rewrite !(lookup_delete_ne _ "experiment_id") by congruence.
      apply lookup_insert_ne. congruence.
Qed.

(** X24: whatever [request_id] the caller put in [sampling_params], the
    router is asked with the fresh request identifier; every post carries
    the text, that identifier as [rid], and the sampling parameters
    without ['request_id'] and ['experiment_id']. *)
Theorem async_send_request_payload (self : ModelDetails.t) (k : nat)
    (text : string) (sampling_params : gmap string pyval)
    (input_ids : option (list Z)) (sent_at : pyfloat)
    (attempts : list attempt) :
  let run :=
    ModelDetails.async_send_request self k text sampling_params input_ids
      sent_at attempts in
  let popped := delete "request_id" (delete "experiment_id" sampling_params) in
  run.1.1.2 = popped /\
  head run.1.2
  = Some (Select text
            (default (VStr (uuid4_hex (S k))) (sampling_params !! "experiment_id"))
            (VStr (uuid4_hex k)) input_ids) /\
  Forall (fun e => is_post e = true ->
                   exists u, e = Post u text popped (uuid4_hex k))
         run.1.2.
Proof.
  intros run popped. subst run. rewrite async_send_request_unfold.
  pose proof (select_runtime_with_identifiers_parts self (S k) text
                (<["request_id" := VStr (uuid4_hex k)]> sampling_params)
                input_ids) as (_ & _ & _ & _ & Hsp & Hev).
  cbv zeta in Hsp, Hev. rewrite popped_after_insert in Hsp. fold popped in Hsp.
  rewrite lookup_insert_ne in Hev by discriminate.
  rewrite lookup_delete_ne, lookup_insert_eq in Hev by discriminate.
  simpl in Hev.
  set (selection := ModelDetails.select_runtime_with_identifiers _ _ _ _ _) in *.
  assert (Forall (fun e => is_post e = true ->
                           exists u, e = Post u text popped (uuid4_hex k))
                 selection.1.2) as Hsel.
  { rewrite Hev. constructor; [discriminate | constructor]. }
  destruct selection.2 as [runtime|e];
    [destruct (ModelDetails.start_time self) as [started|]|];
    cbn [fst snd]; try (rewrite Hev; repeat split; try exact Hsp; rewrite <- Hev; exact Hsel).
  rewrite Hsp. split; [reflexivity|]. split; [rewrite Hev; reflexivity|].
  apply Forall_app. split; [exact Hsel|].
  eapply Forall_impl; [apply send_loop_posts|].
  intros e -> _. eauto.
Qed.

(** X25: the send-time log only grows: a dispatch appends one entry, the
    time of sending relative to [start_time], when a runtime was selected
    and the run has started, and leaves the log alone otherwise. *)
Theorem async_send_request_log (self : ModelDetails.t) (k : nat)
    (text : string) (sampling_params : gmap string pyval)
    (input_ids : option (list Z)) (sent_at : pyfloat)
    (attempts : list attempt) :
  let selection :=
    ModelDetails.select_runtime_with_identifiers self (S k) text
      (<["request_id" := VStr (uuid4_hex k)]> sampling_params) input_ids in
  ModelDetails.request_sent_time
    (ModelDetails.async_send_request self k text sampling_params input_ids
       sent_at attempts).1.1.1.1
  = ModelDetails.request_sent_time self
    ++ match selection.2, ModelDetails.start_time self with
       | Ok _, Some started => [float_sub sent_at started]
       | _, _ => []
       end.
Proof.
  intros selection. rewrite async_send_request_unfold. fold selection.
  pose proof (select_runtime_with_identifiers_parts self (S k) text
                (<["request_id" := VStr (uuid4_hex k)]> sampling_params)
                input_ids) as (_ & Hsent & _).
  fold selection in Hsent.
  destruct selection.2 as [runtime|e];
    [destruct (ModelDetails.start_time self) as [started|]|];
    cbn [fst snd]; rewrite ?app_nil_r; try exact Hsent.
  reflexivity.
Qed.

(** X26: when the selection raises, or the run has not been started
    ([start_time] is [None]), the dispatch raises and posts nothing. *)
Theorem async_send_request_no_post (self : ModelDetails.t) (k : nat)
    (text : string) (sampling_params : gmap string pyval)
    (input_ids : option (list Z)) (sent_at : pyfloat)
    (attempts : list attempt) :
  is_ok (ModelDetails.select_runtime_with_identifiers self (S k) text
           (<["request_id" := VStr (uuid4_hex k)]> sampling_params)
           input_ids).2 = false
  \/ ModelDetails.start_time self = None ->
  let run :=
    ModelDetails.async_send_request self k text sampling_params input_ids
      sent_at attempts in
  posted_to run.1.2 = [] /\ exists e : exn, run.2 = Raised e.
Proof.
  intros Hcase run. subst run. rewrite async_send_request_unfold.
  pose proof (select_runtime_with_identifiers_parts self (S k) text
                (<["request_id" := VStr (uuid4_hex k)]> sampling_params)
                input_ids) as (_ & _ & _ & _ & _ & Hev).
  cbv zeta in Hev.
  set (selection := ModelDetails.select_runtime_with_identifiers _ _ _ _ _) in *.
  destruct selection.2 as [runtime|e].
  - destruct Hcase as [Hsel|Hstart]; [discriminate|]. rewrite Hstart.
    cbn [fst snd]. rewrite Hev. split; [reflexivity | eauto].
  - cbn [fst snd]. rewrite Hev. split; [reflexivity | eauto].
Qed.

End DispatchProperties.

Lemma posted_to_replicate (selected : dispatch_event) (n : nat)
    (u text : string) (sampling_params : gmap string pyval) (rid : string) :
  is_post selected = false ->
  posted_to ([selected] ++ replicate n (Post u text sampling_params rid))
  = replicate n u.
Proof.
  intros Hsel. destruct selected; [|discriminate]. unfold posted_to.
  change (omap ?f ([?e] ++ ?l)) with (omap f l).
  induction n as [|n IH]; [reflexivity|].
  change (omap ?f (replicate (S n) ?e))
    with (u :: omap f (replicate n e)).
  rewrite IH. reflexivity.
Qed.

Section RetryProperties.
Context `{Collaborators}.

Lemma send_loop_raises (generate_url text : string)
    (sampling_params : gmap string pyval) (rid : string)
    (errors : list attempt) (bad : attempt) (e : exn) (rest : list attempt) :
  Forall error_response errors ->
  a_output bad = Raise e ->
  ModelDetails.send_loop generate_url text sampling_params rid
                         (errors ++ bad :: rest)
  = (replicate (S (length errors)) (Post generate_url text sampling_params rid),
     Raised e).
Proof.
  intros Herrors Hbad.
  induction Herrors as [|a errors (b & Hb & Herr) _ IH]; simpl.
  - rewrite Hbad. reflexivity.
  - rewrite Hb, Herr, IH. reflexivity.
Qed.

(** The trace and the end of a dispatch whose selection returned, in a run
    that has started, from the trace and the end of its loop. *)
Lemma async_send_request_loop (self : ModelDetails.t) (k : nat)
    (text : string) (sampling_params : gmap string pyval)
    (input_ids : option (list Z)) (sent_at started : pyfloat)
    (attempts : list attempt) (runtime : EndpointRuntimeInterface)
    (n : nat) (o : outcome (attempt * gmap string pyval)) :
  (ModelDetails.select_runtime_with_identifiers self (S k) text
     (<["request_id" := VStr (uuid4_hex k)]> sampling_params) input_ids).2
  = Ok runtime ->
  ModelDetails.start_time self = Some started ->
  (forall sp rid,
      ModelDetails.send_loop (generate_url runtime) text sp rid attempts
      = (replicate n (Post (generate_url runtime) text sp rid), o)) ->
  let run :=
    ModelDetails.async_send_request self k text sampling_params input_ids
      sent_at attempts in
  posted_to run.1.2 = replicate n (generate_url runtime) /\
  run.2 = match o with
          | Returned (a, output) =>
              match ModelDetails.finish a output with
              | Ok output => Returned output
              | Raise e => Raised e
              end
          | Raised e => Raised e
          | Retrying => Retrying
          end.
Proof.
  intros Hsel Hstart Hloop run. subst run.
  rewrite async_send_request_unfold.
  pose proof (select_runtime_with_identifiers_parts self (S k) text
                (<["request_id" := VStr (uuid4_hex k)]> sampling_params)
                input_ids) as (_ & _ & _ & _ & _ & Hev).
  cbv zeta in Hev. rewrite Hsel, Hstart. cbv zeta. rewrite Hloop.
  cbn [fst snd]. rewrite Hev. split; [|reflexivity].
  apply posted_to_replicate. reflexivity.
Qed.

(** X27: an exception of the transport or of the decoder, after any
    number of error responses, ends the dispatch with that exception; one
    post was made for each response up to it, all to the selected
    runtime, and none after it. *)
Theorem async_send_request_transport_error (self : ModelDetails.t) (k : nat)
    (text : string) (sampling_params : gmap string pyval)
    (input_ids : option (list Z)) (sent_at started : pyfloat)
    (errors : list attempt) (bad : attempt) (e : exn) (rest : list attempt)
    (runtime : EndpointRuntimeInterface) :
  (ModelDetails.select_runtime_with_identifiers self (S k) text
     (<["request_id" := VStr (uuid4_hex k)]> sampling_params) input_ids).2
  = Ok runtime ->
  ModelDetails.start_time self = Some started ->
  Forall error_response errors ->
  a_output bad = Raise e ->
  let run :=
    ModelDetails.async_send_request self k text sampling_params input_ids
      sent_at (errors ++ bad :: rest) in
  posted_to run.1.2 = replicate (S (length errors)) (generate_url runtime) /\
  run.2 = Raised e.
Proof.
  intros Hsel Hstart Herrors Hbad.
  apply (async_send_request_loop self k text sampling_params input_ids
           sent_at started (errors ++ bad :: rest) runtime
           (S (length errors)) (Raised e) Hsel Hstart).
  intros sp rid. apply send_loop_raises; assumption.
Qed.

(** X28: there is no retry limit: as long as every response carries an
    error, the dispatch has posted once for each response, to the selected
    runtime, and has neither returned nor raised. *)
Theorem async_send_request_keeps_retrying (self : ModelDetails.t) (k : nat)
    (text : string) (sampling_params : gmap string pyval)
    (input_ids : option (list Z)) (sent_at started : pyfloat)
    (errors : list attempt) (runtime : EndpointRuntimeInterface) :
  (ModelDetails.select_runtime_with_identifiers self (S k) text
     (<["request_id" := VStr (uuid4_hex k)]> sampling_params) input_ids).2
  = Ok runtime ->
  ModelDetails.start_time self = Some started ->
  Forall error_response errors ->
  let run :=
    ModelDetails.async_send_request self k text sampling_params input_ids
      sent_at errors in
  posted_to run.1.2 = replicate (length errors) (generate_url runtime) /\
  run.2 = Retrying.
Proof.
  intros Hsel Hstart Herrors.
  apply (async_send_request_loop self k text sampling_params input_ids
           sent_at started errors runtime (length errors) Retrying Hsel Hstart).
  intros sp rid. apply send_loop_keeps_retrying, Herrors.
Qed.

(** X29: a response without ['error'] and without ['meta_info'] makes the
    statements after the loop raise [KeyError]. *)
Theorem finish_missing_meta_info (a : attempt) (body : gmap string pyval) :
  body !! "meta_info" = None ->
  ModelDetails.finish a body = Raise KeyError.
Proof.
  intros Hmeta. unfold ModelDetails.finish, dict_getitem.
  rewrite !lookup_insert_ne by discriminate. rewrite Hmeta. reflexivity.
Qed.

(** X30: for a response whose ['meta_info'] holds integer token counts,
    the statements after the loop raise [ZeroDivisionError] when the
    measured latency is zero; otherwise they return the body with the
    three timings, ['topt_req_sec'] = completion tokens over latency and
    ['total_tokens'] = prompt tokens plus completion tokens, and every
    other key of the body as it was. *)
Theorem finish_token_counts (a : attempt) (body meta : gmap string pyval)
    (prompt completion : Z) :
  body !! "meta_info" = Some (VDict meta) ->
  meta !! "prompt_tokens" = Some (VInt prompt) ->
  meta !! "completion_tokens" = Some (VInt completion) ->
  ModelDetails.finish a body =
  if float_is_zero (a_request_latency a) then Raise ZeroDivisionError
  else Ok (<["total_tokens" := VInt (prompt + completion)]>
           (<["topt_req_sec" :=
                VFloat (float_quot (of_int completion) (a_request_latency a))]>
            (<["global_time" := VFloat (a_global_time a)]>
             (<["TTFT" := VFloat (a_ttft a)]>
              (<["request_latency" := VFloat (a_request_latency a)]> body))))).
Proof.
  intros Hmeta Hprompt Hcompletion.
  unfold ModelDetails.finish, dict_getitem.
  rewrite !lookup_insert_ne by discriminate. rewrite Hmeta. cbn [bind getitem].
  unfold dict_getitem. rewrite Hcompletion. cbn [bind].
  unfold val_truediv, truediv. cbn [as_number to_float bind].
  destruct (float_is_zero (a_request_latency a)); [reflexivity|].
  cbn [bind]. rewrite !lookup_insert_ne by discriminate.
  rewrite Hmeta. cbn [bind getitem]. unfold dict_getitem.
  rewrite Hprompt, Hcompletion. reflexivity.
Qed.

End RetryProperties.

Lemma async_send_request_no_post_witness :
  let run :=
    ModelDetails.async_send_request
      (ModelDetails.mk sample_collaborators "model" []
         [runtime_at "http://10.0.0.1:30000"] (0%nat, 1%nat) [] None [] None)
      0 "hello" ∅ None (Real 1) [attempt_of 2 good_body] in
  posted_to run.1.2 = [] /\ exists e : exn, run.2 = Raised e.
Proof.
  apply (@async_send_request_no_post sample_collaborators
           (ModelDetails.mk sample_collaborators "model" []
              [runtime_at "http://10.0.0.1:30000"] (0%nat, 1%nat) [] None []
              None)
           0 "hello" ∅ None (Real 1) [attempt_of 2 good_body]).
  right. reflexivity.
Defined.

Lemma async_send_request_transport_error_witness :
  let run :=
    ModelDetails.async_send_request
      (two_runtimes "http://10.0.0.1:30000" "http://10.0.0.2:30000") 0
      "hello" ∅ None (Real 1)
      ([attempt_of 1 error_body]
         ++ {| a_ttft := of_int 0; a_request_latency := Real 2;
               a_global_time := Real 2; a_output := Raise JSONDecodeError |}
         :: [attempt_of 3 good_body]) in
  posted_to run.1.2
  = replicate (S (length [attempt_of 1 error_body]))
              (generate_url (runtime_at "http://10.0.0.1:30000")) /\
  run.2 = Raised JSONDecodeError.
Proof.
  apply (@async_send_request_transport_error sample_collaborators
           (two_runtimes "http://10.0.0.1:30000" "http://10.0.0.2:30000") 0
           "hello" ∅ None (Real 1) (of_int 0) [attempt_of 1 error_body]
           {| a_ttft := of_int 0; a_request_latency := Real 2;
              a_global_time := Real 2; a_output := Raise JSONDecodeError |}
           JSONDecodeError [attempt_of 3 good_body]
           (runtime_at "http://10.0.0.1:30000")).
  - vm_compute. reflexivity.
  - reflexivity.
  - repeat constructor. exists error_body. split; vm_compute; reflexivity.
  - reflexivity.
Defined.

Lemma async_send_request_keeps_retrying_witness :
  let run :=
    ModelDetails.async_send_request
      (two_runtimes "http://10.0.0.1:30000" "http://10.0.0.2:30000") 0
      "hello" ∅ None (Real 1)
      [attempt_of 1 error_body; attempt_of 2 error_body; attempt_of 3 error_body] in
  posted_to run.1.2
  = replicate
      (length [attempt_of 1 error_body; attempt_of 2 error_body;
               attempt_of 3 error_body])
      (generate_url (runtime_at "http://10.0.0.1:30000")) /\
  run.2 = Retrying.
Proof.
  apply (@async_send_request_keeps_retrying sample_collaborators
           (two_runtimes "http://10.0.0.1:30000" "http://10.0.0.2:30000") 0
           "hello" ∅ None (Real 1) (of_int 0)
           [attempt_of 1 error_body; attempt_of 2 error_body;
            attempt_of 3 error_body]
           (runtime_at "http://10.0.0.1:30000")).
  - vm_compute. reflexivity.
  - reflexivity.
  - repeat constructor; exists error_body; split; vm_compute; reflexivity.
Defined.

Lemma finish_missing_meta_info_witness :
  ModelDetails.finish (attempt_of 2 ∅) {[ "text" := VStr "ok" ]}
  = Raise KeyError.
Proof.
  apply (finish_missing_meta_info (attempt_of 2 ∅)
           {[ "text" := VStr "ok" ]}).
  vm_compute. reflexivity.
Defined.

Lemma finish_token_counts_witness :
  exists output : gmap string pyval,
    ModelDetails.finish (attempt_of 2 good_body) good_body = Ok output /\
    output !! "total_tokens" = Some (VInt 12).
Proof.
  eexists. split.
  - rewrite (finish_token_counts (attempt_of 2 good_body)
               good_body
               {[ "prompt_tokens" := VInt 7; "completion_tokens" := VInt 5 ]}
               7 5); [reflexivity | vm_compute; reflexivity..].
  - vm_compute. reflexivity.
Defined.
